(** * Thumbnail composition engine: the canvas workspace

    A shallow embedding of the scene, history and manipulation logic of
    [src/components/optimizer/CanvasWorkspace.tsx] together with the
    [TextObject] and [CanvasTemplate] declarations of the repository's
    [types] module.

    Conventions of the embedding.
    - A JavaScript [number] is a canonical rational [Qc]: arithmetic is
      exact and equality is numeric equality.  The values the handlers
      compute with (surface coordinates, font sizes, the constants 640,
      360, 15, 150) are finite; [NaN] and the infinities are not modelled.
    - A [string] is the UTF-8 byte sequence of the JavaScript string.
    - An optional property ([isLocked?], or any property of a
      [Partial<TextObject>]) is an [option]; [None] is "absent or
      [undefined]".
    - React state is a record; a handler is a function from the state of
      the render it closes over to the state after its queued updates have
      been applied in order.  Event dispatch is single threaded, so every
      handler runs against the latest committed state.
    - [textObjects] and [selectedTextId] are props owned by the host; the
      component writes them through [setTextObjects] and [onSelectText],
      which the host wires to its own state setters.  The optional
      handler overrides a host may pass ([onMouseDown], [onUpdateText],
      [onAddTextLayer], ...) replace the component's handlers and are not
      part of this development. *)

From Stdlib Require Import QArith Qcanon Ascii Lqa.
From stdpp Require Import base list strings numbers pretty.

Local Open Scope Qc_scope.

(** ** Numbers *)

Definition num (z : Z) : Qc := Q2Qc (inject_Z z).

Definition Qclt_bool (a b : Qc) : bool := bool_decide (a < b).

Definition Qcabs (a : Qc) : Qc := if Qclt_bool a 0 then - a else a.

(** JavaScript truthiness of a number: every number but zero. *)
Definition truthy_num (a : Qc) : bool := negb (bool_decide (a = 0)).

(** JavaScript truthiness of a string: every string but the empty one. *)
Definition truthy_str (s : string) : bool := negb (bool_decide (s = "")).

(** Truthiness of an optional boolean: [undefined] is falsy. *)
Definition truthy_flag (b : option bool) : bool := default false b.

(** [a || d] on an optional number and on an optional string. *)
Definition or_num (a : option Qc) (d : Qc) : Qc :=
  match a with
  | Some v => if truthy_num v then v else d
  | None => d
  end.

Definition or_str (a : option string) (d : string) : string :=
  match a with
  | Some v => if truthy_str v then v else d
  | None => d
  end.

(** ** Data model *)

(** The horizontal alignment literals ['left'], ['center'], ['right']. *)
Inductive Align := align_left | align_center | align_right.

Global Instance Align_eq_dec : EqDecision Align.
Proof. solve_decision. Defined.

(** [TextObject].  [isDragging] is declared as a plain boolean, but the
    layers a template builds carry the property only if the template
    does, so it is optional here like the three properties declared
    optional. *)
Module TextObject.
Record t := mk {
  id : string;
  text : string;
  x : Qc;
  y : Qc;
  fontSize : Qc;
  fontFamily : string;
  color : string;
  strokeColor : string;
  strokeWidth : Qc;
  shadowColor : string;
  shadowBlur : Qc;
  highlightWords : list string;
  highlightColor : string;
  highlightScale : Qc;
  lineHeight : Qc;
  opacity : Qc;
  rotation : Qc;
  align : Align;
  isDragging : option bool;
  isLocked : option bool;
  isHidden : option bool;
  zIndex : option Qc
}.
End TextObject.

Abbreviation TextObject := TextObject.t.

(** A property name paired with a value of that property's type: the
    [(key, value)] arguments of [updateObject]. *)
Inductive KeyValue :=
| kv_id (v : string)
| kv_text (v : string)
| kv_x (v : Qc)
| kv_y (v : Qc)
| kv_fontSize (v : Qc)
| kv_fontFamily (v : string)
| kv_color (v : string)
| kv_strokeColor (v : string)
| kv_strokeWidth (v : Qc)
| kv_shadowColor (v : string)
| kv_shadowBlur (v : Qc)
| kv_highlightWords (v : list string)
| kv_highlightColor (v : string)
| kv_highlightScale (v : Qc)
| kv_lineHeight (v : Qc)
| kv_opacity (v : Qc)
| kv_rotation (v : Qc)
| kv_align (v : Align)
| kv_isDragging (v : option bool)
| kv_isLocked (v : option bool)
| kv_isHidden (v : option bool)
| kv_zIndex (v : option Qc).

Definition assign (kv : KeyValue) (t : TextObject) : TextObject :=
  let 'TextObject.mk a0 a1 a2 a3 a4 a5 a6 a7 a8 a9 a10 a11 a12 a13 a14 a15 a16 a17 a18 a19 a20 a21 := t in
  match kv with
  | kv_id v =>
      TextObject.mk v a1 a2 a3 a4 a5 a6 a7 a8 a9 a10 a11 a12 a13 a14 a15 a16 a17 a18 a19 a20 a21
  | kv_text v =>
      TextObject.mk a0 v a2 a3 a4 a5 a6 a7 a8 a9 a10 a11 a12 a13 a14 a15 a16 a17 a18 a19 a20 a21
  | kv_x v =>
      TextObject.mk a0 a1 v a3 a4 a5 a6 a7 a8 a9 a10 a11 a12 a13 a14 a15 a16 a17 a18 a19 a20 a21
  | kv_y v =>
      TextObject.mk a0 a1 a2 v a4 a5 a6 a7 a8 a9 a10 a11 a12 a13 a14 a15 a16 a17 a18 a19 a20 a21
  | kv_fontSize v =>
      TextObject.mk a0 a1 a2 a3 v a5 a6 a7 a8 a9 a10 a11 a12 a13 a14 a15 a16 a17 a18 a19 a20 a21
  | kv_fontFamily v =>
      TextObject.mk a0 a1 a2 a3 a4 v a6 a7 a8 a9 a10 a11 a12 a13 a14 a15 a16 a17 a18 a19 a20 a21
  | kv_color v =>
      TextObject.mk a0 a1 a2 a3 a4 a5 v a7 a8 a9 a10 a11 a12 a13 a14 a15 a16 a17 a18 a19 a20 a21
  | kv_strokeColor v =>
      TextObject.mk a0 a1 a2 a3 a4 a5 a6 v a8 a9 a10 a11 a12 a13 a14 a15 a16 a17 a18 a19 a20 a21
  | kv_strokeWidth v =>
      TextObject.mk a0 a1 a2 a3 a4 a5 a6 a7 v a9 a10 a11 a12 a13 a14 a15 a16 a17 a18 a19 a20 a21
  | kv_shadowColor v =>
      TextObject.mk a0 a1 a2 a3 a4 a5 a6 a7 a8 v a10 a11 a12 a13 a14 a15 a16 a17 a18 a19 a20 a21
  | kv_shadowBlur v =>
      TextObject.mk a0 a1 a2 a3 a4 a5 a6 a7 a8 a9 v a11 a12 a13 a14 a15 a16 a17 a18 a19 a20 a21
  | kv_highlightWords v =>
      TextObject.mk a0 a1 a2 a3 a4 a5 a6 a7 a8 a9 a10 v a12 a13 a14 a15 a16 a17 a18 a19 a20 a21
  | kv_highlightColor v =>
      TextObject.mk a0 a1 a2 a3 a4 a5 a6 a7 a8 a9 a10 a11 v a13 a14 a15 a16 a17 a18 a19 a20 a21
  | kv_highlightScale v =>
      TextObject.mk a0 a1 a2 a3 a4 a5 a6 a7 a8 a9 a10 a11 a12 v a14 a15 a16 a17 a18 a19 a20 a21
  | kv_lineHeight v =>
      TextObject.mk a0 a1 a2 a3 a4 a5 a6 a7 a8 a9 a10 a11 a12 a13 v a15 a16 a17 a18 a19 a20 a21
  | kv_opacity v =>
      TextObject.mk a0 a1 a2 a3 a4 a5 a6 a7 a8 a9 a10 a11 a12 a13 a14 v a16 a17 a18 a19 a20 a21
  | kv_rotation v =>
      TextObject.mk a0 a1 a2 a3 a4 a5 a6 a7 a8 a9 a10 a11 a12 a13 a14 a15 v a17 a18 a19 a20 a21
  | kv_align v =>
      TextObject.mk a0 a1 a2 a3 a4 a5 a6 a7 a8 a9 a10 a11 a12 a13 a14 a15 a16 v a18 a19 a20 a21
  | kv_isDragging v =>
      TextObject.mk a0 a1 a2 a3 a4 a5 a6 a7 a8 a9 a10 a11 a12 a13 a14 a15 a16 a17 v a19 a20 a21
  | kv_isLocked v =>
      TextObject.mk a0 a1 a2 a3 a4 a5 a6 a7 a8 a9 a10 a11 a12 a13 a14 a15 a16 a17 a18 v a20 a21
  | kv_isHidden v =>
      TextObject.mk a0 a1 a2 a3 a4 a5 a6 a7 a8 a9 a10 a11 a12 a13 a14 a15 a16 a17 a18 a19 v a21
  | kv_zIndex v =>
      TextObject.mk a0 a1 a2 a3 a4 a5 a6 a7 a8 a9 a10 a11 a12 a13 a14 a15 a16 a17 a18 a19 a20 v
  end.

(** A [Partial<TextObject>]: every property is optional. *)
Module Partial.
Record t := mk {
  id : option string;
  text : option string;
  x : option Qc;
  y : option Qc;
  fontSize : option Qc;
  fontFamily : option string;
  color : option string;
  strokeColor : option string;
  strokeWidth : option Qc;
  shadowColor : option string;
  shadowBlur : option Qc;
  highlightWords : option (list string);
  highlightColor : option string;
  highlightScale : option Qc;
  lineHeight : option Qc;
  opacity : option Qc;
  rotation : option Qc;
  align : option Align;
  isDragging : option bool;
  isLocked : option bool;
  isHidden : option bool;
  zIndex : option Qc
}.
End Partial.

Module CanvasTemplate.
Record t := mk {
  id : string;
  name : string;
  previewColor : string;
  objects : list Partial.t;
  isCustom : option bool
}.
End CanvasTemplate.

Abbreviation CanvasTemplate := CanvasTemplate.t.

(** ** Component state *)

Record State := mkState {
  textObjects : list TextObject;
  selectedTextId : string;
  history : list (list TextObject);
  future : list (list TextObject);
  dragOffset : Qc * Qc;
  snapLines : option Qc * option Qc;
  isFullScreen : bool
}.

Definition setTextObjects (f : list TextObject -> list TextObject) (s : State) : State :=
  mkState (f (textObjects s)) (selectedTextId s) (history s) (future s)
          (dragOffset s) (snapLines s) (isFullScreen s).

Definition onSelectText (sel : string) (s : State) : State :=
  mkState (textObjects s) sel (history s) (future s)
          (dragOffset s) (snapLines s) (isFullScreen s).

Definition setHistory (f : list (list TextObject) -> list (list TextObject)) (s : State) : State :=
  mkState (textObjects s) (selectedTextId s) (f (history s)) (future s)
          (dragOffset s) (snapLines s) (isFullScreen s).

Definition setFuture (f : list (list TextObject) -> list (list TextObject)) (s : State) : State :=
  mkState (textObjects s) (selectedTextId s) (history s) (f (future s))
          (dragOffset s) (snapLines s) (isFullScreen s).

Definition setDragOffset (d : Qc * Qc) (s : State) : State :=
  mkState (textObjects s) (selectedTextId s) (history s) (future s)
          d (snapLines s) (isFullScreen s).

Definition setSnapLines (l : option Qc * option Qc) (s : State) : State :=
  mkState (textObjects s) (selectedTextId s) (history s) (future s)
          (dragOffset s) l (isFullScreen s).

Definition setIsFullScreen (b : bool) (s : State) : State :=
  mkState (textObjects s) (selectedTextId s) (history s) (future s)
          (dragOffset s) (snapLines s) b.

(** ** History *)

(** [arr.slice(-n)]: the last [n] elements, the whole array when it is
    shorter. *)
Definition slice_last {A} (n : nat) (l : list A) : list A :=
  drop (length l - n) l.

(** [arr.slice(0, -1)]: all but the last element. *)
Definition slice_init {A} (l : list A) : list A :=
  take (length l - 1) l.

(** [JSON.parse(JSON.stringify(objs))].  Layers are plain records of
    finite numbers, strings, booleans and string arrays, and an absent
    property stays absent, so the round trip yields a structurally equal
    value; in a model with value semantics the copy is the value. *)
Definition deepCopy (objs : list TextObject) : list TextObject := objs.

(** [pushHistory], CanvasWorkspace.tsx lines 128-131. *)
Definition pushHistory (s : State) : State :=
  let cur := textObjects s in
  setFuture (fun _ => [])
    (setHistory (fun prev => slice_last 20 (prev ++ [deepCopy cur])) s).

(** [handleUndo], lines 132-138. *)
Definition handleUndo (s : State) : State :=
  match last (history s) with
  | None => s
  | Some previous =>
      let cur := textObjects s in
      setHistory slice_init
        (setTextObjects (fun _ => previous)
          (setFuture (fun prev => cur :: prev) s))
  end.

(** [handleRedo], lines 139-145. *)
Definition handleRedo (s : State) : State :=
  match future s with
  | [] => s
  | next :: _ =>
      let cur := textObjects s in
      setFuture (drop 1)
        (setTextObjects (fun _ => next)
          (setHistory (fun prev => prev ++ [cur]) s))
  end.

(** ** Manipulation handlers *)

(** [updateObject], lines 148-151: the snapshot, when asked for, is taken
    before the lookup and whether or not a layer has the id. *)
Definition updateObject (id : string) (kv : KeyValue) (recordHistory : bool)
    (s : State) : State :=
  let s1 := if recordHistory then pushHistory s else s in
  setTextObjects
    (fun prev => (fun t => if bool_decide (TextObject.id t = id) then assign kv t else t) <$> prev)
    s1.

(** *** Keyboard *)

(** The part of a [KeyboardEvent] the handler reads.  [targetIsTextEntry]
    is [e.target instanceof HTMLInputElement || e.target instanceof
    HTMLTextAreaElement]. *)
Record KeyboardEvent := {
  key : string;
  ctrlKey : bool;
  metaKey : bool;
  shiftKey : bool;
  targetIsTextEntry : bool
}.

(** [toLowerCase] on the ASCII letters; other bytes are kept.  The handler
    only compares the result with ['z'] and ['y'], which no other
    character lowers to. *)
Definition lower_ascii (c : ascii) : ascii :=
  let n := nat_of_ascii c in
  if bool_decide (65 <= n <= 90)%nat then ascii_of_nat (n + 32) else c.

Fixpoint toLowerCase (s : string) : string :=
  match s with
  | EmptyString => EmptyString
  | String c r => String (lower_ascii c) (toLowerCase r)
  end.

(** [textObjects.find(t => t.id === sel)]. *)
Definition find_by_id (sel : string) (objs : list TextObject) : option TextObject :=
  snd <$> list_find (fun t => TextObject.id t = sel) objs.

(** [handleKeyDown], lines 155-196.  The four arrow tests and the delete
    test are separate [if] statements, run one after the other. *)
Definition handleKeyDown (e : KeyboardEvent) (s : State) : State :=
  if targetIsTextEntry e then s
  else if (ctrlKey e || metaKey e) && bool_decide (toLowerCase (key e) = "z") then
    handleUndo s
  else if (ctrlKey e || metaKey e) && bool_decide (toLowerCase (key e) = "y") then
    handleRedo s
  else if bool_decide (key e = "Escape") then
    onSelectText "" (if isFullScreen s then setIsFullScreen false s else s)
  else if truthy_str (selectedTextId s) then
    match find_by_id (selectedTextId s) (textObjects s) with
    | None => s
    | Some activeObj =>
        let sel := selectedTextId s in
        let moveAmount := if shiftKey e then num 10 else num 1 in
        let s1 := if bool_decide (key e = "ArrowUp")
                  then updateObject sel (kv_y (TextObject.y activeObj - moveAmount)) false s
                  else s in
        let s2 := if bool_decide (key e = "ArrowDown")
                  then updateObject sel (kv_y (TextObject.y activeObj + moveAmount)) false s1
                  else s1 in
        let s3 := if bool_decide (key e = "ArrowLeft")
                  then updateObject sel (kv_x (TextObject.x activeObj - moveAmount)) false s2
                  else s2 in
        let s4 := if bool_decide (key e = "ArrowRight")
                  then updateObject sel (kv_x (TextObject.x activeObj + moveAmount)) false s3
                  else s3 in
        if bool_decide (key e = "Delete") || bool_decide (key e = "Backspace") then
          onSelectText ""
            (setTextObjects (filter (fun t => TextObject.id t <> sel)) (pushHistory s4))
        else s4
    end
  else s.

(** [handleUpdateTextProps], lines 202-206, without a host override. *)
Definition handleUpdateTextProps (kv : KeyValue) (s : State) : State :=
  if negb (truthy_str (selectedTextId s)) then s
  else updateObject (selectedTextId s) kv true s.

(** *** Layer panel callbacks *)

(** The callbacks handed to [LayerPanel], line 521. *)

Definition onToggleHidden (id : string) (s : State) : State :=
  setTextObjects
    (fmap (fun t => if bool_decide (TextObject.id t = id)
                    then assign (kv_isHidden (Some (negb (truthy_flag (TextObject.isHidden t))))) t
                    else t))
    (pushHistory s).

Definition onToggleLock (id : string) (s : State) : State :=
  setTextObjects
    (fmap (fun t => if bool_decide (TextObject.id t = id)
                    then assign (kv_isLocked (Some (negb (truthy_flag (TextObject.isLocked t))))) t
                    else t))
    (pushHistory s).

Definition onDelete (id : string) (s : State) : State :=
  onSelectText ""
    (setTextObjects (filter (fun t => TextObject.id t <> id)) (pushHistory s)).

(** [[arr[i], arr[j]] = [arr[j], arr[i]]] on a copy of the array, for
    indices the caller has checked to be in range. *)
Definition swap {A} (i j : nat) (l : list A) : list A :=
  match l !! i, l !! j with
  | Some a, Some b => <[j:=a]> (<[i:=b]> l)
  | _, _ => l
  end.

(** [findIndex] gives the first layer with the id; without one the
    callback returns before [pushHistory]. *)
Definition onMoveLayer (id dir : string) (s : State) : State :=
  match list_find (fun t => TextObject.id t = id) (textObjects s) with
  | None => s
  | Some (idx, _) =>
      let newArr := textObjects s in
      let newArr :=
        if bool_decide (dir = "up") && bool_decide (idx < length newArr - 1)%nat then
          swap idx (idx + 1) newArr
        else if bool_decide (dir = "down") && bool_decide (0 < idx)%nat then
          swap idx (idx - 1) newArr
        else newArr in
      setTextObjects (fun _ => newArr) (pushHistory s)
  end.

(** *** Pointer *)

(** A pointer event, already mapped to logical surface coordinates: the
    handlers' [mouseX] and [mouseY], that is the client position relative
    to the canvas rectangle times the ratio of the logical size to the
    displayed size.  The handlers are attached to the canvas element, so
    [canvasRef.current] is set whenever they run. *)
Record PointerEvent := {
  mouseX : Qc;
  mouseY : Qc
}.

Definition HIT_RADIUS : Qc := num 150.

(** [Math.sqrt(Math.pow(mx - obj.x, 2) + Math.pow(my - obj.y, 2)) < 150].
    The square root is monotone on the non-negative numbers, so the test
    is the comparison of the squared distance with the squared radius. *)
Definition within_radius (e : PointerEvent) (obj : TextObject) : bool :=
  let dx := mouseX e - TextObject.x obj in
  let dy := mouseY e - TextObject.y obj in
  Qclt_bool (dx * dx + dy * dy) (HIT_RADIUS * HIT_RADIUS).

(** The loop [for (let i = n - 1; i >= 0; i--)] of [handleMouseDown]: the
    layer the loop returns at, if any.  [n] is the number of indices still
    to visit; the loop starts with [n = textObjects.length]. *)
Fixpoint hitScan (objs : list TextObject) (e : PointerEvent) (n : nat) : option TextObject :=
  match n with
  | O => None
  | S i =>
      match objs !! i with
      | None => hitScan objs e i
      | Some obj =>
          if truthy_flag (TextObject.isHidden obj) || truthy_flag (TextObject.isLocked obj)
          then hitScan objs e i
          else if within_radius e obj then Some obj
          else hitScan objs e i
      end
  end.

(** [handleMouseDown], lines 252-269. *)
Definition handleMouseDown (e : PointerEvent) (s : State) : State :=
  match hitScan (textObjects s) e (length (textObjects s)) with
  | Some obj =>
      setDragOffset (mouseX e - TextObject.x obj, mouseY e - TextObject.y obj)
        (setTextObjects
           (fmap (fun t => if bool_decide (TextObject.id t = TextObject.id obj)
                           then assign (kv_isDragging (Some true)) t else t))
           (onSelectText (TextObject.id obj) (pushHistory s)))
  | None => onSelectText "" s
  end.

Definition centerX : Qc := num 1280 / num 2.
Definition centerY : Qc := num 720 / num 2.
Definition SNAP_THRESHOLD : Qc := num 15.

(** One axis of the snap logic: the coordinate to store and the snap line
    to expose ([undefined] when the axis did not snap).  The test is
    [Math.abs(v - center) < SNAP_THRESHOLD]. *)
Definition snapAxis (center v : Qc) : Qc * option Qc :=
  if Qclt_bool (Qcabs (v - center)) SNAP_THRESHOLD then (center, Some center)
  else (v, None).

(** [handleMouseMove], lines 271-300. *)
Definition handleMouseMove (e : PointerEvent) (s : State) : State :=
  match find_by_id (selectedTextId s) (textObjects s) with
  | None => s
  | Some activeObj =>
      if negb (truthy_flag (TextObject.isDragging activeObj))
         || truthy_flag (TextObject.isLocked activeObj)
      then s
      else
        let newX := mouseX e - fst (dragOffset s) in
        let newY := mouseY e - snd (dragOffset s) in
        let '(newX, snappedX) := snapAxis centerX newX in
        let '(newY, snappedY) := snapAxis centerY newY in
        setTextObjects
          (fmap (fun t => if bool_decide (TextObject.id t = selectedTextId s)
                          then assign (kv_y newY) (assign (kv_x newX) t) else t))
          (setSnapLines (snappedX, snappedY) s)
  end.

(** [handleMouseUp], lines 302-305; also the canvas's [onMouseLeave]. *)
Definition handleMouseUp (s : State) : State :=
  setSnapLines (None, None)
    (setTextObjects (fmap (assign (kv_isDragging (Some false)))) s).

(** *** Templates and new layers *)

Definition dec (n : Z) (d : positive) : Qc := Q2Qc (n # d).

(** The id [`t_${Date.now()}_${i}`]. *)
Definition template_id (now : N) (i : nat) : string :=
  "t_" +:+ pretty now +:+ "_" +:+ pretty i.

(** One element of [tpl.objects.map((obj, i) => ...)].  The spread
    [...obj] comes first, so every property named after it overrides the
    template's; [isDragging] and [zIndex] are the only properties the
    literal does not name. *)
Definition fromTemplate (now : N) (i : nat) (obj : Partial.t) : TextObject :=
  {| TextObject.id := template_id now i;
     TextObject.fontFamily := "Cairo";
     TextObject.shadowBlur := num 10;
     TextObject.shadowColor := "rgba(0,0,0,0.8)";
     TextObject.isLocked := Some false;
     TextObject.isHidden := Some false;
     TextObject.align := align_center;
     TextObject.text := or_str (Partial.text obj) "نص";
     TextObject.x := or_num (Partial.x obj) (num 640);
     TextObject.y := or_num (Partial.y obj) (num 360);
     TextObject.fontSize := or_num (Partial.fontSize obj) (num 60);
     TextObject.color := or_str (Partial.color obj) "#fff";
     TextObject.strokeColor := or_str (Partial.strokeColor obj) "#000";
     TextObject.strokeWidth := or_num (Partial.strokeWidth obj) (num 2);
     TextObject.highlightWords := default [] (Partial.highlightWords obj);
     TextObject.highlightColor := or_str (Partial.highlightColor obj) "#fbbf24";
     TextObject.highlightScale := or_num (Partial.highlightScale obj) (dec 11 10);
     TextObject.lineHeight := dec 12 10;
     TextObject.opacity := num 1;
     TextObject.rotation := or_num (Partial.rotation obj) (num 0);
     TextObject.isDragging := Partial.isDragging obj;
     TextObject.zIndex := Partial.zIndex obj |}.

(** [handleApplyTemplate], lines 207-218.
    [confirmed] is the answer of [window.confirm]; [clock i] is what
    [Date.now()] returns in the callback for the element at index [i]. *)
Definition handleApplyTemplate (tpl : CanvasTemplate) (confirmed : bool)
    (clock : nat -> N) (s : State) : State :=
  if confirmed then
    let newObjs := imap (fun i obj => fromTemplate (clock i) i obj) (CanvasTemplate.objects tpl) in
    let s1 := setTextObjects (fun _ => newObjs) (pushHistory s) in
    match newObjs with
    | first :: _ => onSelectText (TextObject.id first) s1
    | [] => s1
    end
  else s.

(** [handleAddTextLayer], lines 219-227, without a host override; [now]
    is [Date.now()]. *)
Definition handleAddTextLayer (text : string) (now : N) (s : State) : State :=
  let newObj :=
    {| TextObject.id := "t" +:+ pretty now;
       TextObject.text := text;
       TextObject.x := num 640;
       TextObject.y := num 360;
       TextObject.fontSize := num 100;
       TextObject.fontFamily := "Cairo";
       TextObject.color := "#ffffff";
       TextObject.strokeColor := "#000000";
       TextObject.strokeWidth := num 4;
       TextObject.shadowColor := "rgba(0,0,0,0.8)";
       TextObject.shadowBlur := num 10;
       TextObject.highlightWords := [];
       TextObject.highlightColor := "#fbbf24";
       TextObject.highlightScale := num 1;
       TextObject.lineHeight := dec 12 10;
       TextObject.isDragging := Some false;
       TextObject.opacity := num 1;
       TextObject.rotation := num 0;
       TextObject.align := align_center;
       TextObject.isLocked := Some false;
       TextObject.isHidden := Some false;
       TextObject.zIndex := Some (num (Z.of_nat (length (textObjects s) + 1))) |} in
  onSelectText (TextObject.id newObj)
    (setTextObjects (fun prev => prev ++ [newObj]) (pushHistory s)).

(** ** Text layout *)

(** The text part of [draw], lines 334-386: what is measured, and which
    words are stroked and filled where and at which size. *)

Definition byte_in (lo hi : nat) (c : ascii) : bool :=
  bool_decide (lo <= nat_of_ascii c <= hi)%nat.

Definition byte_is (n : nat) (c : ascii) : bool :=
  bool_decide (nat_of_ascii c = n).

(** [s.split(sep)] for a one-character separator. *)
Fixpoint split (sep : ascii) (s : string) : list string :=
  match s with
  | EmptyString => [EmptyString]
  | String c r =>
      if bool_decide (c = sep) then EmptyString :: split sep r
      else match split sep r with
           | h :: t => String c h :: t
           | [] => [String c EmptyString]
           end
  end.

(** [s.trimStart()]: drops the leading white space and line terminators
    of ECMAScript, in their UTF-8 encodings: U+0009..U+000D, U+0020,
    U+00A0, U+1680, U+2000..U+200A, U+2028, U+2029, U+202F, U+205F,
    U+3000 and U+FEFF. *)
Fixpoint trimStart (s : string) : string :=
  match s with
  | EmptyString => EmptyString
  | String c r =>
      if byte_in 9 13 c || byte_is 32 c then trimStart r
      else
        match r with
        | String c1 r1 =>
            if byte_is 194 c && byte_is 160 c1 then trimStart r1
            else
              match r1 with
              | String c2 r2 =>
                  if (byte_is 225 c && byte_is 154 c1 && byte_is 128 c2)
                     || (byte_is 226 c && byte_is 128 c1
                         && (byte_in 128 138 c2 || byte_in 168 169 c2 || byte_is 175 c2))
                     || (byte_is 226 c && byte_is 129 c1 && byte_is 159 c2)
                     || (byte_is 227 c && byte_is 128 c1 && byte_is 128 c2)
                     || (byte_is 239 c && byte_is 187 c1 && byte_is 191 c2)
                  then trimStart r2
                  else s
              | EmptyString => s
              end
        | EmptyString => s
        end
  end.

(** [s.trimEnd()]: a suffix that is white space throughout is dropped. *)
Fixpoint trimEnd (s : string) : string :=
  match s with
  | EmptyString => EmptyString
  | String c r =>
      if bool_decide (trimStart s = EmptyString) then EmptyString
      else String c (trimEnd r)
  end.

Definition trim (s : string) : string := trimEnd (trimStart s).

(** [s.replace(/[.,!؟]/g, '')]: removes every full stop, comma,
    exclamation mark and Arabic question mark (U+061F, the bytes D8 9F). *)
Fixpoint stripPunct (s : string) : string :=
  match s with
  | EmptyString => EmptyString
  | String c r =>
      if byte_is 46 c || byte_is 44 c || byte_is 33 c then stripPunct r
      else
        match r with
        | String c1 r1 =>
            if byte_is 216 c && byte_is 159 c1 then stripPunct r1
            else String c (stripPunct r)
        | EmptyString => String c EmptyString
        end
  end.

(** [/[\u0600-\u06FF]/.test(line)]: the characters U+0600..U+06FF are the
    two-byte sequences whose lead byte is D8..DB. *)
Fixpoint isArabic (line : string) : bool :=
  match line with
  | EmptyString => false
  | String c r => byte_in 216 219 c || isArabic r
  end.

Record WordMetric := {
  word : string;
  width : Qc;
  size : Qc;
  isHigh : bool
}.

(** A [strokeText] followed by a [fillText] of one word. *)
Record DrawnWord := {
  dw_word : string;
  dw_x : Qc;
  dw_y : Qc;
  dw_size : Qc;
  dw_fillStyle : string
}.

Section Canvas.

(** [measureText size family s] is [ctx.measureText(s).width] while
    [ctx.font] is [`900 ${size}px '${family}'`]. *)
Variable measureText : Qc -> string -> string -> Qc.

Definition wordMetric (obj : TextObject) (w : string) : WordMetric :=
  let cleanW := stripPunct (trim w) in
  let isHigh := bool_decide (cleanW ∈ TextObject.highlightWords obj) in
  let currentSize :=
    if isHigh then TextObject.fontSize obj * TextObject.highlightScale obj
    else TextObject.fontSize obj in
  {| word := w;
     width := measureText currentSize (TextObject.fontFamily obj) (w +:+ " ");
     size := currentSize;
     isHigh := isHigh |}.

Definition lineWords (line : string) : list string :=
  let words := split " " line in
  if isArabic line then reverse words else words.

Definition wordMetrics (obj : TextObject) (line : string) : list WordMetric :=
  wordMetric obj <$> lineWords line.

Definition totalLineWidth (ms : list WordMetric) : Qc :=
  foldl (fun acc m => acc + width m) (num 0) ms.

Definition lineStartX (obj : TextObject) (ms : list WordMetric) : Qc :=
  match TextObject.align obj with
  | align_center => TextObject.x obj - totalLineWidth ms / num 2
  | align_right => TextObject.x obj - totalLineWidth ms
  | align_left => TextObject.x obj
  end.

(** [wordMetrics.forEach(m => { ...; drawX += m.width; })]. *)
Fixpoint drawWords (obj : TextObject) (lineY drawX : Qc) (ms : list WordMetric)
    : list DrawnWord :=
  match ms with
  | [] => []
  | m :: rest =>
      {| dw_word := word m; dw_x := drawX; dw_y := lineY; dw_size := size m;
         dw_fillStyle := if isHigh m then TextObject.highlightColor obj
                         else TextObject.color obj |}
      :: drawWords obj lineY (drawX + width m) rest
  end.

Definition drawLine (obj : TextObject) (startY baseLineHeight : Qc) (i : nat)
    (line : string) : list DrawnWord :=
  let lineY := startY + num (Z.of_nat i) * baseLineHeight in
  let ms := wordMetrics obj line in
  drawWords obj lineY (lineStartX obj ms) ms.

(** The text of one layer, in paint order; a hidden layer draws nothing.
    [lineHeight] is always present in this model, so [obj.lineHeight ??
    1.2] is the property itself. *)
Definition drawObject (obj : TextObject) : list DrawnWord :=
  if truthy_flag (TextObject.isHidden obj) then []
  else
    let lines := split "010" (TextObject.text obj) in
    let baseLineHeight := TextObject.fontSize obj * TextObject.lineHeight obj in
    let totalHeight := num (Z.of_nat (length lines)) * baseLineHeight in
    let startY := TextObject.y obj - totalHeight / num 2 + baseLineHeight / num 2 in
    mjoin (imap (drawLine obj startY baseLineHeight) lines).

Definition draw (objs : list TextObject) : list DrawnWord :=
  mjoin (drawObject <$> objs).

End Canvas.

(** ** Recorded operations *)

(** The operations that go through [pushHistory] before they change the
    layer sequence. *)
Inductive Op :=
| AddLayer (text : string) (now : N)
| DeleteLayer (id : string)
| ToggleHidden (id : string)
| ToggleLocked (id : string)
| ReorderLayer (id dir : string)
| UpdateLayerProperty (id : string) (kv : KeyValue)
| ApplyTemplate (tpl : CanvasTemplate) (clock : nat -> N).

Definition run (op : Op) (s : State) : State :=
  match op with
  | AddLayer text now => handleAddTextLayer text now s
  | DeleteLayer id => onDelete id s
  | ToggleHidden id => onToggleHidden id s
  | ToggleLocked id => onToggleLock id s
  | ReorderLayer id dir => onMoveLayer id dir s
  | UpdateLayerProperty id kv => updateObject id kv true s
  | ApplyTemplate tpl clock => handleApplyTemplate tpl true clock s
  end.

(** [onMoveLayer] returns before [pushHistory] when no layer has the id;
    every other operation records unconditionally. *)
Definition recorded (op : Op) (s : State) : bool :=
  match op with
  | ReorderLayer id _ => bool_decide (id ∈ TextObject.id <$> textObjects s)
  | _ => true
  end.

Fixpoint runAll (ops : list Op) (s : State) : State :=
  match ops with
  | [] => s
  | op :: rest => runAll rest (run op s)
  end.

Fixpoint allRecorded (ops : list Op) (s : State) : bool :=
  match ops with
  | [] => true
  | op :: rest => recorded op s && allRecorded rest (run op s)
  end.

Fixpoint undoN (n : nat) (s : State) : State :=
  match n with
  | O => s
  | S k => undoN k (handleUndo s)
  end.

(** The layer sequence before each operation of a run. *)
Fixpoint preStates (ops : list Op) (s : State) : list (list TextObject) :=
  match ops with
  | [] => []
  | op :: rest => textObjects s :: preStates rest (run op s)
  end.

(** ** Events *)

(** Everything the workspace reacts to: the keyboard listener, the canvas
    pointer handlers, the recorded operations, the toolbar's undo and redo
    buttons, a selection made from the layer panel or the editor's close
    button, an edit made in the property editor, a template offered and
    declined, and the full-screen toggle. *)
Inductive Event :=
| KeyDown (e : KeyboardEvent)
| MouseDown (e : PointerEvent)
| MouseMove (e : PointerEvent)
| MouseUp
| Command (op : Op)
| TemplateDeclined (tpl : CanvasTemplate) (clock : nat -> N)
| UndoButton
| RedoButton
| Select (id : string)
| EditProperty (kv : KeyValue)
| ToggleFullScreen.

Definition dispatch (ev : Event) (s : State) : State :=
  match ev with
  | KeyDown e => handleKeyDown e s
  | MouseDown e => handleMouseDown e s
  | MouseMove e => handleMouseMove e s
  | MouseUp => handleMouseUp s
  | Command op => run op s
  | TemplateDeclined tpl clock => handleApplyTemplate tpl false clock s
  | UndoButton => handleUndo s
  | RedoButton => handleRedo s
  | Select id => onSelectText id s
  | EditProperty kv => handleUpdateTextProps kv s
  | ToggleFullScreen => setIsFullScreen (negb (isFullScreen s)) s
  end.

Fixpoint dispatchAll (evs : list Event) (s : State) : State :=
  match evs with
  | [] => s
  | ev :: rest => dispatchAll rest (dispatch ev s)
  end.

(** The two stacks never hold more than 20 snapshots between them. *)
Definition stacks_bounded (s : State) : Prop :=
  (length (history s) + length (future s) <= 20)%nat.

(** What a handler can do to the stacks: nothing, what [pushHistory]
    does, an undo or a redo. *)
Definition stacks_step (s s' : State) : Prop :=
  (history s' = history s /\ future s' = future s)
  \/ (history s' = history (pushHistory s) /\ future s' = future (pushHistory s))
  \/ s' = handleUndo s
  \/ s' = handleRedo s.

(** ** Example scenes *)

(** A layer styled like the one the host starts with. *)
Definition plainLayer (id text : string) (x y : Z) : TextObject :=
  {| TextObject.id := id; TextObject.text := text;
     TextObject.x := num x; TextObject.y := num y;
     TextObject.fontSize := num 80; TextObject.fontFamily := "Cairo";
     TextObject.color := "#ffffff"; TextObject.strokeColor := "#000000";
     TextObject.strokeWidth := num 4;
     TextObject.shadowColor := "rgba(0,0,0,0.8)"; TextObject.shadowBlur := num 10;
     TextObject.highlightWords := []; TextObject.highlightColor := "#fbbf24";
     TextObject.highlightScale := num 1; TextObject.lineHeight := dec 12 10;
     TextObject.opacity := num 1; TextObject.rotation := num 0;
     TextObject.align := align_center; TextObject.isDragging := Some false;
     TextObject.isLocked := None; TextObject.isHidden := None;
     TextObject.zIndex := None |}.

(** A freshly mounted workspace over a given scene and selection. *)
Definition mounted (objs : list TextObject) (sel : string) : State :=
  mkState objs sel [] [] (num 0, num 0) (None, None) false.

Definition sceneX : State := mounted [plainLayer "t1" "X" 640 360] "t1".

(** [AddLayer("Test")], a rotation of the new layer by 45 degrees, then its
    deletion. *)
Definition addRotateDelete : list Op :=
  [ AddLayer "Test" 1700000000000;
    UpdateLayerProperty "t1700000000000" (kv_rotation (num 45));
    DeleteLayer "t1700000000000" ].

Definition afterAdd : State := run (AddLayer "Test" 1700000000000) sceneX.

(** A drag in progress: the pointer went down on the anchor of a layer at
    (600, 300), so the stored offset is (0, 0). *)
Definition dragStart : State :=
  handleMouseDown {| mouseX := num 600; mouseY := num 300 |}
    (mounted [plainLayer "t1" "X" 600 300] "t1").

(** A layer the hit test of [handleMouseDown] accepts: neither hidden nor
    locked, with its anchor within the hit radius of the pointer. *)
Definition eligible (e : PointerEvent) (obj : TextObject) : bool :=
  negb (truthy_flag (TextObject.isHidden obj) || truthy_flag (TextObject.isLocked obj))
  && within_radius e obj.

(** Two overlapping layers, ["low"] painted first and ["top"] above it. *)
Definition twoLayers : State :=
  mounted [plainLayer "low" "A" 600 300; plainLayer "top" "B" 640 360] "".

(** A plain key press outside any text-entry field. *)
Definition keyPress (k : string) (shift : bool) : KeyboardEvent :=
  {| key := k; ctrlKey := false; metaKey := false; shiftKey := shift;
     targetIsTextEntry := false |}.

(** The host's starting scene after its selected layer was locked from the
    layer panel. *)
Definition lockedSelected : State := onToggleLock "t1" sceneX.

(** Strings of decimal digits, the shape of a printed clock reading or
    index. *)
Definition is_digit (c : ascii) : bool := byte_in 48 57 c.

Fixpoint all_digits (s : string) : bool :=
  match s with
  | EmptyString => true
  | String c r => is_digit c && all_digits r
  end.

(** The properties the built-in templates use. *)
Definition partialOf (text : string) (x y fontSize : Z) (color strokeColor : string)
    (strokeWidth : Z) (highlightWords : option (list string))
    (highlightColor : option string) (highlightScale : option Qc)
    (rotation : option Z) : Partial.t :=
  {| Partial.id := None; Partial.text := Some text;
     Partial.x := Some (num x); Partial.y := Some (num y);
     Partial.fontSize := Some (num fontSize); Partial.fontFamily := None;
     Partial.color := Some color; Partial.strokeColor := Some strokeColor;
     Partial.strokeWidth := Some (num strokeWidth);
     Partial.shadowColor := None; Partial.shadowBlur := None;
     Partial.highlightWords := highlightWords;
     Partial.highlightColor := highlightColor;
     Partial.highlightScale := highlightScale;
     Partial.lineHeight := None; Partial.opacity := None;
     Partial.rotation := num <$> rotation; Partial.align := None;
     Partial.isDragging := None; Partial.isLocked := None;
     Partial.isHidden := None; Partial.zIndex := None |}.

(** The built-in template ['t_vs'], three layers. *)
Definition t_vs : CanvasTemplate :=
  {| CanvasTemplate.id := "t_vs";
     CanvasTemplate.name := "مقارنة (VS)";
     CanvasTemplate.previewColor := "#ef4444";
     CanvasTemplate.objects :=
       [ partialOf "VS" 640 360 120 "#ffffff" "#000000" 8 (Some []) None None (Some 0%Z);
         partialOf "المنتج الأول" 300 360 60 "#fbbf24" "#000000" 4 None None None (Some (-5)%Z);
         partialOf "المنتج الثاني" 980 360 60 "#fbbf24" "#000000" 4 None None None (Some 5%Z) ];
     CanvasTemplate.isCustom := None |}.

(** A custom template whose single layer asks for its own font, opacity
    and alignment. *)
Definition styledTemplate : CanvasTemplate :=
  {| CanvasTemplate.id := "custom_1";
     CanvasTemplate.name := "Styled";
     CanvasTemplate.previewColor := "#22c55e";
     CanvasTemplate.objects :=
       [ Partial.mk None (Some "SALE") (Some (num 200)) (Some (num 100))
           (Some (num 90)) (Some "Oswald") (Some "#ffffff") (Some "#000000")
           (Some (num 4)) None None None None None None (Some (dec 1 2)) None
           (Some align_left) None None None None ];
     CanvasTemplate.isCustom := Some true |}.

(** A custom template with no layer definitions. *)
Definition emptyTemplate : CanvasTemplate :=
  {| CanvasTemplate.id := "custom_0";
     CanvasTemplate.name := "Blank";
     CanvasTemplate.previewColor := "#000000";
     CanvasTemplate.objects := [];
     CanvasTemplate.isCustom := Some true |}.

(** A clock that does not tick during the application. *)
Definition frozenClock (now : N) : nat -> N := fun _ => now.

(** What [supplied || d] stores when the template supplies a usable value
    (a non-empty string, a non-zero number) and when it omits the
    property. *)
Definition taken_str (supplied : option string) (d stored : string) : Prop :=
  match supplied with
  | Some v => v <> "" -> stored = v
  | None => stored = d
  end.

Definition taken_num (supplied : option Qc) (d stored : Qc) : Prop :=
  match supplied with
  | Some v => v <> num 0 -> stored = v
  | None => stored = d
  end.

(** The layer of the emphasis example: ["HELLO WORLD"] at font size 40,
    with ["WORLD"] highlighted at scale 1.5. *)
Definition helloWorld : TextObject :=
  assign (kv_highlightScale (dec 3 2))
    (assign (kv_highlightWords ["WORLD"])
       (assign (kv_fontSize (num 40)) (plainLayer "t1" "HELLO WORLD" 640 360))).

(** A fixed-pitch font: every character, the space included, advances by
    0.6 of the font size. *)
Definition monospace (size : Qc) (family s : string) : Qc :=
  dec 6 10 * size * num (Z.of_nat (String.length s)).

(** ** Further notions used by the properties *)

(** The layer sequences a workspace can move between with undo and redo,
    oldest first: the past stack, the current sequence, the future stack. *)
Definition timeline (s : State) : list (list TextObject) :=
  history s ++ [textObjects s] ++ future s.

Fixpoint redoN (n : nat) (s : State) : State :=
  match n with
  | O => s
  | S k => redoN k (handleRedo s)
  end.

(** The pointer moves of one gesture, in the order they arrive. *)
Definition dragMoves (es : list PointerEvent) (s : State) : State :=
  foldl (fun acc e => handleMouseMove e acc) s es.

(** Key presses that take the undo, redo or delete branch of
    [handleKeyDown] when they reach it. *)
Definition keyIsStructural (e : KeyboardEvent) : bool :=
  ((ctrlKey e || metaKey e)
   && (bool_decide (toLowerCase (key e) = "z") || bool_decide (toLowerCase (key e) = "y")))
  || bool_decide (key e = "Delete") || bool_decide (key e = "Backspace").

Definition setsId (kv : KeyValue) : bool :=
  match kv with
  | kv_id _ => true
  | _ => false
  end.

(** Events that can change which layers exist, their ids or their order:
    adding, deleting, reordering, applying a template, rewriting an id,
    undo and redo. *)
Definition structural (ev : Event) : bool :=
  match ev with
  | KeyDown e => keyIsStructural e
  | Command (ToggleHidden _) | Command (ToggleLocked _) => false
  | Command (UpdateLayerProperty _ kv) => setsId kv
  | Command _ => true
  | EditProperty kv => setsId kv
  | UndoButton | RedoButton => true
  | MouseDown _ | MouseMove _ | MouseUp | TemplateDeclined _ _
  | Select _ | ToggleFullScreen => false
  end.

(** ** Suggested hooks *)

(** [ScoredHook] of the types module. *)
Record ScoredHook := {
  hook : string;
  score : Qc
}.

(** [hooks.sort((a, b) => b.score - a.score)].  [Array.prototype.sort] is
    stable, and with finite scores the comparator is a consistent
    ordering, so the result is the one stable arrangement by descending
    score; it is computed here by insertion from the right. *)
Fixpoint insertHook (a : ScoredHook) (sorted : list ScoredHook) : list ScoredHook :=
  match sorted with
  | [] => [a]
  | b :: rest =>
      if Qclt_bool (score a) (score b) then b :: insertHook a rest
      else a :: sorted
  end.

Definition sortByScore (hooks : list ScoredHook) : list ScoredHook :=
  foldr insertHook [] hooks.


(** [s.startsWith(p)] and [s.includes(p)] on the UTF-8 bytes; a match of
    well-formed UTF-8 inside well-formed UTF-8 always falls on character
    boundaries. *)
Fixpoint startsWith (p s : string) : bool :=
  match p, s with
  | EmptyString, _ => true
  | String _ _, EmptyString => false
  | String a p', String b s' => bool_decide (a = b) && startsWith p' s'
  end.

Fixpoint includes (p s : string) : bool :=
  startsWith p s
  || match s with
     | EmptyString => false
     | String _ s' => includes p s'
     end.

(** The placeholder test of the auto-fill effect, line 114. *)
Definition isPlaceholder (currentText : string) : bool :=
  includes "عنوان جذاب" currentText
  || includes "نص" currentText
  || bool_decide (trim currentText = "").

(** The auto-fill effect, lines 110-123, which runs when the suggestions
    or the selection change; without a host override of [onUpdateText].
    [currentText] is [textObjects.find(...)?.text || ""]. *)
Definition autoFillBestHook (suggestedHooks : list ScoredHook) (s : State) : State :=
  match suggestedHooks with
  | [] => s
  | _ :: _ =>
      match sortByScore suggestedHooks with
      | [] => s
      | bestHook :: _ =>
          let currentText :=
            default "" (TextObject.text <$> find_by_id (selectedTextId s) (textObjects s)) in
          if isPlaceholder currentText && truthy_str (selectedTextId s) then
            setTextObjects
              (fmap (fun t => if bool_decide (TextObject.id t = selectedTextId s)
                              then assign (kv_text (hook bestHook)) t else t))
              s
          else s
      end
  end.

(** ** Highlight buttons *)



(** ** Background image *)




(** Three suggestions, the best score shared by two of them. *)
Definition threeHooks : list ScoredHook :=
  [ {| hook := "WOW"; score := num 70 |};
    {| hook := "5 TIPS"; score := num 90 |};
    {| hook := "TOP 5"; score := num 90 |} ].

(** ** The host's pointer handlers *)







(** A scene whose top layer is locked and whose bottom layer is hidden. *)
Definition guardedLayers : State :=
  mounted [ assign (kv_isHidden (Some true)) (plainLayer "low" "A" 600 300);
            assign (kv_isLocked (Some true)) (plainLayer "top" "B" 640 360) ] "".

(** * Properties *)

(** ** The embedding on small inputs *)

Example split_keeps_empty_words : split " " "a  b" = ["a"; ""; "b"].
Proof. reflexivity. Qed.

Example split_empty : split " " "" = [""].
Proof. reflexivity. Qed.

Example trim_both_ends : trim "  a b  " = "a b".
Proof. reflexivity. Qed.

Example stripPunct_everywhere : stripPunct "a.b,!c؟d" = "abcd".
Proof. reflexivity. Qed.

Example arabic_line_is_reversed : lineWords "أفضل 5" = ["5"; "أفضل"].
Proof. reflexivity. Qed.

Example latin_line_is_kept : lineWords "HELLO WORLD" = ["HELLO"; "WORLD"].
Proof. reflexivity. Qed.

Example template_id_shape : template_id 1700000000000 2 = "t_1700000000000_2".
Proof. reflexivity. Qed.

Example move_up_swaps :
  TextObject.id <$> textObjects (onMoveLayer "low" "up" twoLayers) = ["top"; "low"].
Proof. reflexivity. Qed.

Example move_down_swaps :
  TextObject.id <$> textObjects (onMoveLayer "top" "down" twoLayers) = ["top"; "low"].
Proof. reflexivity. Qed.

Example added_layer_is_selected :
  TextObject.id <$> textObjects afterAdd = ["t1"; "t1700000000000"]
  /\ selectedTextId afterAdd = "t1700000000000".
Proof. split; reflexivity. Qed.

Example emphasized_word_is_drawn_larger :
  (fun d => (dw_word d, this (dw_x d), this (dw_size d), dw_fillStyle d))
    <$> drawObject monospace helloWorld
  = [("HELLO", inject_Z 460, inject_Z 40, "#ffffff");
     ("WORLD", inject_Z 604, inject_Z 60, "#fbbf24")].
Proof. vm_compute. reflexivity. Qed.

(** ** History stack *)

Lemma slice_last_length {A} (n : nat) (l : list A) :
  length (slice_last n l) = min n (length l).
Proof. unfold slice_last. rewrite length_drop. lia. Qed.

(** Appending [k] entries and keeping the last [n >= k] keeps all the new
    entries and the last [n - k] old ones. *)
Lemma slice_last_app {A} (n : nat) (l new : list A) :
  (length new <= n)%nat ->
  slice_last n (l ++ new) = slice_last (n - length new) l ++ new.
Proof.
  intros H. unfold slice_last. rewrite length_app.
  destruct (decide (length l + length new <= n)%nat) as [Hle|Hgt].
  - replace (length l + length new - n)%nat with 0%nat by lia.
    replace (length l - (n - length new))%nat with 0%nat by lia.
    reflexivity.
  - replace (length l + length new - n)%nat
      with (length l - (n - length new))%nat by lia.
    rewrite drop_app_le by lia. reflexivity.
Qed.

Lemma slice_init_snoc {A} (l : list A) (a : A) : slice_init (l ++ [a]) = l.
Proof.
  unfold slice_init. rewrite length_app. simpl.
  replace (length l + 1 - 1)%nat with (length l) by lia.
  apply take_app_length.
Qed.

Lemma pushHistory_history s :
  history (pushHistory s) = slice_last 20 (history s ++ [textObjects s]).
Proof. reflexivity. Qed.

Lemma pushHistory_future s : future (pushHistory s) = [].
Proof. reflexivity. Qed.

Lemma handleUndo_nil s : history s = [] -> handleUndo s = s.
Proof. intros H. unfold handleUndo. rewrite H. reflexivity. Qed.

Lemma handleUndo_snoc s h previous :
  history s = h ++ [previous] ->
  handleUndo s =
    mkState previous (selectedTextId s) h (textObjects s :: future s)
            (dragOffset s) (snapLines s) (isFullScreen s).
Proof.
  intros H. unfold handleUndo. rewrite H, last_snoc.
  unfold setHistory, setTextObjects, setFuture. simpl.
  rewrite H, slice_init_snoc. reflexivity.
Qed.

Lemma handleRedo_nil s : future s = [] -> handleRedo s = s.
Proof. intros H. unfold handleRedo. rewrite H. reflexivity. Qed.

Lemma handleRedo_cons s next f :
  future s = next :: f ->
  handleRedo s =
    mkState next (selectedTextId s) (history s ++ [textObjects s]) f
            (dragOffset s) (snapLines s) (isFullScreen s).
Proof.
  intros H. unfold handleRedo. rewrite H.
  unfold setHistory, setTextObjects, setFuture. simpl.
  rewrite H. reflexivity.
Qed.

(** C2.  Undo pops the last past snapshot, pushes the layer sequence it
    replaces onto the front of the future stack and installs the snapshot;
    with an empty past stack it changes nothing.  Redo pops the front of
    the future stack, pushes the current sequence onto the past stack and
    installs the popped one; with an empty future stack it changes
    nothing.  Hence, from any state with at least one past snapshot, Undo
    followed by Redo gives back the layer sequence (and the two stacks). *)
Theorem undo_redo_spec
    (objs : list TextObject) (sel : string) (past fut : list (list TextObject))
    (previous next : list TextObject) (d : Qc * Qc) (sn : option Qc * option Qc)
    (fs : bool) :
  handleUndo (mkState objs sel (past ++ [previous]) fut d sn fs)
    = mkState previous sel past (objs :: fut) d sn fs
  /\ handleUndo (mkState objs sel [] fut d sn fs)
    = mkState objs sel [] fut d sn fs
  /\ handleRedo (mkState objs sel past (next :: fut) d sn fs)
    = mkState next sel (past ++ [objs]) fut d sn fs
  /\ handleRedo (mkState objs sel past [] d sn fs)
    = mkState objs sel past [] d sn fs
  /\ textObjects (handleRedo (handleUndo (mkState objs sel (past ++ [previous]) fut d sn fs)))
    = objs
  /\ handleRedo (handleUndo (mkState objs sel (past ++ [previous]) fut d sn fs))
    = mkState objs sel (past ++ [previous]) fut d sn fs.
Proof.
  assert (Hu : handleUndo (mkState objs sel (past ++ [previous]) fut d sn fs)
               = mkState previous sel past (objs :: fut) d sn fs)
    by (erewrite handleUndo_snoc; reflexivity).
  assert (Hr : forall o p, handleRedo (mkState o sel p (next :: fut) d sn fs)
               = mkState next sel (p ++ [o]) fut d sn fs)
    by (intros; erewrite handleRedo_cons; reflexivity).
  split; [exact Hu|]. split; [reflexivity|].
  split; [apply Hr|]. split; [reflexivity|].
  rewrite Hu. split; erewrite handleRedo_cons; reflexivity.
Qed.

(** ** Recorded operations and undo *)

Lemma list_find_id_is_Some (id : string) (objs : list TextObject) :
  id ∈ TextObject.id <$> objs ->
  is_Some (list_find (fun t => TextObject.id t = id) objs).
Proof.
  intros Hin. apply list_elem_of_fmap in Hin as (t & Heq & Ht).
  apply (list_find_elem_of _ _ t); [exact Ht | symmetry; exact Heq].
Qed.

Lemma list_find_id_None (id : string) (objs : list TextObject) :
  id ∉ TextObject.id <$> objs ->
  list_find (fun t => TextObject.id t = id) objs = None.
Proof.
  intros Hnin. apply list_find_None, Forall_forall. intros t Ht Heq.
  apply Hnin, list_elem_of_fmap. exists t. split; [symmetry; exact Heq | exact Ht].
Qed.

(** A recorded operation leaves exactly what [pushHistory] leaves on the
    two stacks. *)
Lemma run_recorded (op : Op) (s : State) :
  recorded op s = true ->
  history (run op s) = slice_last 20 (history s ++ [textObjects s])
  /\ future (run op s) = [].
Proof.
  destruct op as [text now|id|id|id|id dir|id kv|tpl clock]; simpl; intros Hrec;
    try (split; reflexivity).
  - apply bool_decide_eq_true in Hrec.
    apply list_find_id_is_Some in Hrec as [[idx t] Hfind].
    unfold onMoveLayer. rewrite Hfind. split; reflexivity.
  - unfold handleApplyTemplate.
    destruct (imap _ _); split; reflexivity.
Qed.

Lemma preStates_length (ops : list Op) (s : State) :
  length (preStates ops s) = length ops.
Proof.
  revert s. induction ops as [|op rest IH]; intros s; simpl; [reflexivity|].
  f_equal. apply IH.
Qed.

(** Running [ops] appends the layer sequences seen before each operation
    to the past stack; any suffix [keep] of the old stack short enough to
    fit under the cap with them is still there. *)
Lemma runAll_history (ops : list Op) :
  forall (s : State) (old keep : list (list TextObject)),
    history s = old ++ keep ->
    (length keep + length ops <= 20)%nat ->
    allRecorded ops s = true ->
    exists old', history (runAll ops s) = old' ++ keep ++ preStates ops s.
Proof.
  induction ops as [|op rest IH]; intros s old keep Hh Hlen Hrec; simpl in *.
  - exists old. rewrite app_nil_r. exact Hh.
  - apply andb_prop in Hrec as [Hop Hrest].
    destruct (run_recorded op s Hop) as [Hpush _].
    rewrite Hh, <- app_assoc in Hpush.
    rewrite slice_last_app in Hpush by (rewrite length_app; simpl; lia).
    destruct (IH (run op s) _ (keep ++ [textObjects s]) Hpush) as [old' Hold'].
    + rewrite length_app. simpl. lia.
    + exact Hrest.
    + exists old'. rewrite Hold', <- app_assoc. reflexivity.
Qed.

(** [n] undos pop the last [n] snapshots and end on the oldest of them. *)
Lemma undoN_app (snaps : list (list TextObject)) :
  forall (s : State) (h : list (list TextObject)),
    history s = h ++ snaps ->
    head (snaps ++ [textObjects s]) = Some (textObjects (undoN (length snaps) s))
    /\ history (undoN (length snaps) s) = h.
Proof.
  induction snaps as [|x snaps IH] using rev_ind; intros s h Hh.
  - simpl. rewrite app_nil_r in Hh. split; [reflexivity | exact Hh].
  - rewrite length_app, Nat.add_1_r. simpl.
    rewrite app_assoc in Hh.
    pose proof (handleUndo_snoc s _ _ Hh) as Hu.
    destruct (IH (handleUndo s) h) as [Hhead Hhist].
    { rewrite Hu. reflexivity. }
    split; [|exact Hhist].
    rewrite <- Hhead. rewrite Hu. simpl.
    destruct snaps; reflexivity.
Qed.

Lemma preStates_head (ops : list Op) (s : State) :
  head (preStates ops s ++ [textObjects (runAll ops s)]) = Some (textObjects s).
Proof. destruct ops; reflexivity. Qed.

(** ** The cap on the stacks *)

Lemma pushHistory_bounded (s : State) : stacks_bounded (pushHistory s).
Proof.
  unfold stacks_bounded. rewrite pushHistory_history, pushHistory_future.
  rewrite slice_last_length.
  change (length (@nil (list TextObject))) with 0%nat. lia.
Qed.

Lemma handleUndo_bounded (s : State) : stacks_bounded s -> stacks_bounded (handleUndo s).
Proof.
  unfold stacks_bounded, handleUndo. intros H.
  destruct (last (history s)) as [previous|] eqn:Hlast; [|exact H].
  simpl. unfold slice_init. rewrite length_take.
  destruct (history s); [discriminate Hlast|]. simpl in *. lia.
Qed.

Lemma handleRedo_bounded (s : State) : stacks_bounded s -> stacks_bounded (handleRedo s).
Proof.
  unfold stacks_bounded. intros H.
  destruct (future s) as [|next f] eqn:Hf.
  - rewrite handleRedo_nil by exact Hf. rewrite Hf. exact H.
  - rewrite (handleRedo_cons s next f Hf). simpl.
    rewrite length_app. simpl. simpl in H. lia.
Qed.

Lemma stacks_step_bounded (s s' : State) :
  stacks_step s s' -> stacks_bounded s -> stacks_bounded s'.
Proof.
  intros [[Hh Hf]|[[Hh Hf]|[->| ->]]] Hb.
  - unfold stacks_bounded. rewrite Hh, Hf. exact Hb.
  - unfold stacks_bounded. rewrite Hh, Hf. apply pushHistory_bounded.
  - apply handleUndo_bounded, Hb.
  - apply handleRedo_bounded, Hb.
Qed.

Lemma handleKeyDown_stacks (e : KeyboardEvent) (s : State) :
  stacks_step s (handleKeyDown e s).
Proof.
  unfold handleKeyDown, stacks_step.
  destruct (targetIsTextEntry e); [left; split; reflexivity|].
  destruct ((ctrlKey e || metaKey e) && bool_decide (toLowerCase (key e) = "z"));
    [right; right; left; reflexivity|].
  destruct ((ctrlKey e || metaKey e) && bool_decide (toLowerCase (key e) = "y"));
    [right; right; right; reflexivity|].
  destruct (bool_decide (key e = "Escape"));
    [left; destruct (isFullScreen s); split; reflexivity|].
  destruct (truthy_str (selectedTextId s)); [|left; split; reflexivity].
  destruct (find_by_id (selectedTextId s) (textObjects s)) as [activeObj|];
    [|left; split; reflexivity].
  repeat case_bool_decide; simpl; try congruence;
    first [ left; split; reflexivity | right; left; split; reflexivity ].
Qed.

Lemma dispatch_stacks (ev : Event) (s : State) : stacks_step s (dispatch ev s).
Proof.
  destruct ev as [e|e|e| |op|tpl clock| | |id|kv| ]; simpl.
  - apply handleKeyDown_stacks.
  - unfold handleMouseDown. case_match;
      [right; left; split; reflexivity | left; split; reflexivity].
  - unfold handleMouseMove. repeat case_match; left; split; reflexivity.
  - left. split; reflexivity.
  - destruct (recorded op s) eqn:Hrec.
    + right. left. exact (run_recorded op s Hrec).
    + left. destruct op; try discriminate Hrec. simpl in *.
      apply bool_decide_eq_false in Hrec.
      unfold onMoveLayer. rewrite (list_find_id_None _ _ Hrec). split; reflexivity.
  - left. split; reflexivity.
  - right. right. left. reflexivity.
  - right. right. right. reflexivity.
  - left. split; reflexivity.
  - unfold handleUpdateTextProps. case_match;
      [left; split; reflexivity | right; left; split; reflexivity].
  - left. split; reflexivity.
Qed.

Lemma dispatchAll_bounded (evs : list Event) :
  forall s, stacks_bounded s -> stacks_bounded (dispatchAll evs s).
Proof.
  induction evs as [|ev evs IH]; intros s Hb; simpl; [exact Hb|].
  apply IH. exact (stacks_step_bounded _ _ (dispatch_stacks ev s) Hb).
Qed.

(** C1.  After at most 20 recorded operations, as many undos give back
    the layer sequence the run started from, whatever the scene and the
    stacks were.  A recorded operation leaves at most 20 snapshots on the
    past stack, on a full stack it drops the oldest one, and no sequence
    of events takes the past stack of a workspace beyond 20. *)
Theorem undo_restores_initial (ops : list Op) (s : State) :
  ((length ops <= 20)%nat ->
   allRecorded ops s = true ->
   textObjects (undoN (length ops) (runAll ops s)) = textObjects s)
  /\ (forall op, recorded op s = true ->
        (length (history (run op s)) <= 20)%nat)
  /\ (forall op oldest rest, recorded op s = true ->
        history s = oldest :: rest -> length rest = 19%nat ->
        history (run op s) = rest ++ [textObjects s])
  /\ (forall evs, stacks_bounded s ->
        (length (history (dispatchAll evs s)) <= 20)%nat).
Proof.
  split; [|split; [|split]].
  - intros Hlen Hrec.
    destruct (runAll_history ops s (history s) [] (eq_sym (app_nil_r _)))
      as [old' Hold']; [simpl; lia | exact Hrec |].
    simpl in Hold'.
    destruct (undoN_app (preStates ops s) (runAll ops s) old' Hold') as [Hhead _].
    rewrite preStates_head, preStates_length in Hhead.
    congruence.
  - intros op Hop. destruct (run_recorded op s Hop) as [-> _].
    rewrite slice_last_length. lia.
  - intros op oldest rest Hop Hh Hrest.
    destruct (run_recorded op s Hop) as [-> _].
    rewrite Hh. unfold slice_last. rewrite length_app. simpl.
    rewrite Hrest. reflexivity.
  - intros evs Hb. pose proof (dispatchAll_bounded evs s Hb) as H.
    unfold stacks_bounded in H. lia.
Qed.

(** The scenario of the specification: add a layer, rotate it, delete it,
    undo three times. *)
Lemma undo_restores_initial_witness :
  (length addRotateDelete <= 20)%nat
  /\ allRecorded addRotateDelete sceneX = true
  /\ textObjects (undoN 3 (runAll addRotateDelete sceneX)) = textObjects sceneX.
Proof.
  split; [simpl; lia|]. split; [vm_compute; reflexivity|].
  apply (proj1 (undo_restores_initial addRotateDelete sceneX));
    [simpl; lia | vm_compute; reflexivity].
Defined.

(** C8.  A recorded operation empties the future stack, so after any
    number of undos followed by one, Redo changes nothing. *)
Theorem mutation_discards_redo (s : State) (n : nat) (op : Op) :
  recorded op (undoN n s) = true ->
  future (run op (undoN n s)) = []
  /\ handleRedo (run op (undoN n s)) = run op (undoN n s).
Proof.
  intros Hrec. destruct (run_recorded _ _ Hrec) as [_ Hfut].
  split; [exact Hfut | apply handleRedo_nil, Hfut].
Qed.

(** One layer added and undone, then a toggle: the redo entry is gone. *)
Lemma mutation_discards_redo_witness :
  future (undoN 1 afterAdd) <> []
  /\ recorded (ToggleHidden "t1") (undoN 1 afterAdd) = true
  /\ future (run (ToggleHidden "t1") (undoN 1 afterAdd)) = []
  /\ handleRedo (run (ToggleHidden "t1") (undoN 1 afterAdd))
     = run (ToggleHidden "t1") (undoN 1 afterAdd).
Proof.
  split; [vm_compute; discriminate|]. split; [reflexivity|].
  apply (mutation_discards_redo afterAdd 1 (ToggleHidden "t1")). reflexivity.
Defined.

(** ** Snapping *)

(** Order facts on [Qc] are decided on the underlying rationals. *)
Ltac qc_order :=
  repeat match goal with a : Qc |- _ => destruct a end;
  unfold Qclt, Qcle, Qcabs, Qclt_bool in *;
  repeat case_bool_decide;
  unfold Qclt, Qcle in *; simpl in *;
  rewrite ?Qred_correct in *;
  unfold inject_Z in *;
  lra.

Lemma Qcabs_lt (a t : Qc) : Qcabs a < t <-> - t < a /\ a < t.
Proof. split; [intros H; split|intros [H1 H2]]; qc_order. Qed.

Lemma centerX_640 : centerX = num 640.
Proof. apply Qc_is_canon. reflexivity. Qed.

Lemma centerY_360 : centerY = num 360.
Proof. apply Qc_is_canon. reflexivity. Qed.

(** The snap test is strict: only coordinates strictly between
    [center - 15] and [center + 15] are replaced by the center. *)
Lemma snapAxis_inside (center v : Qc) :
  center - num 15 < v -> v < center + num 15 ->
  snapAxis center v = (center, Some center).
Proof.
  intros H1 H2. unfold snapAxis.
  assert (Qcabs (v - center) < SNAP_THRESHOLD) as H.
  { apply Qcabs_lt. unfold SNAP_THRESHOLD. split; qc_order. }
  unfold Qclt_bool. rewrite bool_decide_eq_true_2 by exact H. reflexivity.
Qed.

Lemma snapAxis_outside (center v : Qc) :
  v <= center - num 15 \/ center + num 15 <= v ->
  snapAxis center v = (v, None).
Proof.
  intros H. unfold snapAxis.
  assert (~ Qcabs (v - center) < SNAP_THRESHOLD) as Hn.
  { rewrite Qcabs_lt. unfold SNAP_THRESHOLD. intros [H1 H2].
    destruct H as [H|H]; qc_order. }
  unfold Qclt_bool. rewrite bool_decide_eq_false_2 by exact Hn. reflexivity.
Qed.

Lemma snapX_inside (v : Qc) :
  num 625 < v -> v < num 655 -> fst (snapAxis centerX v) = num 640.
Proof.
  intros H1 H2. rewrite snapAxis_inside, centerX_640;
    [reflexivity | rewrite centerX_640; qc_order ..].
Qed.

Lemma snapX_outside (v : Qc) :
  v <= num 625 \/ num 655 <= v -> fst (snapAxis centerX v) = v.
Proof.
  intros H. rewrite snapAxis_outside; [reflexivity|].
  rewrite centerX_640. destruct H as [H|H]; [left|right]; qc_order.
Qed.

Lemma snapY_inside (v : Qc) :
  num 345 < v -> v < num 375 -> fst (snapAxis centerY v) = num 360.
Proof.
  intros H1 H2. rewrite snapAxis_inside, centerY_360;
    [reflexivity | rewrite centerY_360; qc_order ..].
Qed.

Lemma snapY_outside (v : Qc) :
  v <= num 345 \/ num 375 <= v -> fst (snapAxis centerY v) = v.
Proof.
  intros H. rewrite snapAxis_outside; [reflexivity|].
  rewrite centerY_360. destruct H as [H|H]; [left|right]; qc_order.
Qed.

Lemma num_lt (a b : Z) : (a < b)%Z -> num a < num b.
Proof.
  intros H. unfold num, Qclt. simpl. rewrite !Qred_correct.
  unfold Qlt. simpl. lia.
Qed.

Lemma num_le (a b : Z) : (a <= b)%Z -> num a <= num b.
Proof.
  intros H. unfold num, Qcle. simpl. rewrite !Qred_correct.
  unfold Qle. simpl. lia.
Qed.

(** C3, as the code has it.  While the selected layer is being dragged and
    is not locked, a pointer move stores, on each axis independently, the
    center (640 horizontally, 360 vertically) when the unsnapped
    coordinate is strictly less than 15 units away from it, and the
    unsnapped coordinate otherwise.  So 628 and 626 are stored as 640,
    while 625, 624 and 620 are stored unchanged. *)
Theorem drag_snaps_per_axis (e : PointerEvent) (s : State) (activeObj : TextObject) :
  find_by_id (selectedTextId s) (textObjects s) = Some activeObj ->
  truthy_flag (TextObject.isDragging activeObj) = true ->
  truthy_flag (TextObject.isLocked activeObj) = false ->
  let newX := mouseX e - fst (dragOffset s) in
  let newY := mouseY e - snd (dragOffset s) in
  exists X Y : Qc,
    textObjects (handleMouseMove e s)
      = (fun t => if bool_decide (TextObject.id t = selectedTextId s)
                  then assign (kv_y Y) (assign (kv_x X) t) else t)
        <$> textObjects s
    /\ (num 625 < newX -> newX < num 655 -> X = num 640)
    /\ (newX <= num 625 \/ num 655 <= newX -> X = newX)
    /\ (num 345 < newY -> newY < num 375 -> Y = num 360)
    /\ (newY <= num 345 \/ num 375 <= newY -> Y = newY)
    /\ (newX = num 628 -> X = num 640)
    /\ (newX = num 626 -> X = num 640)
    /\ (newX = num 625 -> X = num 625)
    /\ (newX = num 624 -> X = num 624)
    /\ (newX = num 620 -> X = num 620).
Proof.
  intros Hfind Hdrag Hlock newX newY.
  exists (fst (snapAxis centerX newX)), (fst (snapAxis centerY newY)).
  split.
  { unfold handleMouseMove. rewrite Hfind, Hdrag, Hlock.
    cbv beta iota zeta delta [negb orb]. fold newX newY.
    destruct (snapAxis centerX newX) as [X sx], (snapAxis centerY newY) as [Y sy].
    reflexivity. }
  split; [apply snapX_inside|]. split; [apply snapX_outside|].
  split; [apply snapY_inside|]. split; [apply snapY_outside|].
  split; [intros ->; apply snapX_inside; apply num_lt; lia|].
  split; [intros ->; apply snapX_inside; apply num_lt; lia|].
  split; [intros ->; apply snapX_outside; left; apply num_le; lia|].
  split; [intros ->; apply snapX_outside; left; apply num_le; lia|].
  intros ->; apply snapX_outside; left; apply num_le; lia.
Qed.

(** A drag whose pointer lands at X = 626: the layer is stored at 640. *)
Lemma drag_snaps_per_axis_witness :
  exists X Y : Qc,
    textObjects (handleMouseMove {| mouseX := num 626; mouseY := num 100 |} dragStart)
      = (fun t => if bool_decide (TextObject.id t = "t1")
                  then assign (kv_y Y) (assign (kv_x X) t) else t)
        <$> textObjects dragStart
    /\ X = num 640 /\ Y = num 100.
Proof.
  destruct (drag_snaps_per_axis {| mouseX := num 626; mouseY := num 100 |} dragStart
              (assign (kv_isDragging (Some true)) (plainLayer "t1" "X" 600 300))
              eq_refl eq_refl eq_refl)
    as (X & Y & Hobjs & HX & _ & _ & HY & _).
  exists X, Y. split; [exact Hobjs|]. split.
  - apply HX; vm_compute; reflexivity.
  - rewrite HY; [apply Qc_is_canon; reflexivity|].
    left. vm_compute. discriminate.
Defined.

(** C3 as stated fails at the boundary: an update landing at X = 625 is
    exactly 15 units from the center; it is stored as 625, not as 640. *)
Lemma snap_at_625_counterexample :
  TextObject.x <$>
    textObjects (handleMouseMove {| mouseX := num 625; mouseY := num 100 |} dragStart)
    = [num 625]
  /\ TextObject.x <$>
    textObjects (handleMouseMove {| mouseX := num 625; mouseY := num 100 |} dragStart)
    <> [num 640].
Proof.
  assert (H : TextObject.x <$>
    textObjects (handleMouseMove {| mouseX := num 625; mouseY := num 100 |} dragStart)
    = [num 625]).
  { vm_compute. reflexivity. }
  split; [exact H|]. rewrite H. intros E.
  apply (f_equal (fmap this)) in E. vm_compute in E. discriminate E.
Qed.

(** ** Hit testing *)

Lemma hitScan_Some (objs : list TextObject) (e : PointerEvent) (n : nat) (obj : TextObject) :
  hitScan objs e n = Some obj ->
  exists i, (i < n)%nat /\ objs !! i = Some obj /\ eligible e obj = true
    /\ forall k o, (i < k < n)%nat -> objs !! k = Some o -> eligible e o = false.
Proof.
  induction n as [|n IH]; simpl; [discriminate|].
  destruct (objs !! n) as [o|] eqn:Hn.
  - destruct (truthy_flag (TextObject.isHidden o) || truthy_flag (TextObject.isLocked o))
      eqn:Hskip; [|destruct (within_radius e o) eqn:Hin].
    + intros H. destruct (IH H) as (i & Hi & Hobj & Hel & Habove).
      exists i. repeat split; [lia | exact Hobj | exact Hel |].
      intros k o' Hk Hk'. destruct (decide (k = n)) as [->|Hne].
      * rewrite Hn in Hk'. injection Hk' as <-. unfold eligible. rewrite Hskip. reflexivity.
      * apply (Habove k); [lia | exact Hk'].
    + intros [= <-]. exists n. repeat split; [lia | exact Hn | |intros; lia].
      unfold eligible. rewrite Hskip, Hin. reflexivity.
    + intros H. destruct (IH H) as (i & Hi & Hobj & Hel & Habove).
      exists i. repeat split; [lia | exact Hobj | exact Hel |].
      intros k o' Hk Hk'. destruct (decide (k = n)) as [->|Hne].
      * rewrite Hn in Hk'. injection Hk' as <-. unfold eligible. rewrite Hskip, Hin. reflexivity.
      * apply (Habove k); [lia | exact Hk'].
  - intros H. destruct (IH H) as (i & Hi & Hobj & Hel & Habove).
    exists i. repeat split; [lia | exact Hobj | exact Hel |].
    intros k o' Hk Hk'. destruct (decide (k = n)) as [->|Hne].
    * rewrite Hn in Hk'. discriminate.
    * apply (Habove k); [lia | exact Hk'].
Qed.








(** ** Locked layers *)

(** A drag never moves a locked layer: [handleMouseMove] returns before
    any update when the selected layer is locked. *)
Lemma locked_drag_noop (e : PointerEvent) (s : State) (activeObj : TextObject) :
  find_by_id (selectedTextId s) (textObjects s) = Some activeObj ->
  truthy_flag (TextObject.isLocked activeObj) = true ->
  handleMouseMove e s = s.
Proof.
  intros Hfind Hlock. unfold handleMouseMove. rewrite Hfind, Hlock.
  rewrite orb_true_r. reflexivity.
Qed.

(** An arrow key moves every layer carrying the selected id by one unit,
    ten with shift, and leaves both stacks alone.  The handler does not
    look at [isLocked]. *)
Lemma arrow_nudge (k : string) (shift : bool) (s : State) (activeObj : TextObject) :
  k ∈ ["ArrowUp"; "ArrowDown"; "ArrowLeft"; "ArrowRight"] ->
  selectedTextId s <> "" ->
  find_by_id (selectedTextId s) (textObjects s) = Some activeObj ->
  let m := if shift then num 10 else num 1 in
  let kv :=
    if bool_decide (k = "ArrowUp") then kv_y (TextObject.y activeObj - m)
    else if bool_decide (k = "ArrowDown") then kv_y (TextObject.y activeObj + m)
    else if bool_decide (k = "ArrowLeft") then kv_x (TextObject.x activeObj - m)
    else kv_x (TextObject.x activeObj + m) in
  handleKeyDown (keyPress k shift) s
    = setTextObjects
        (fmap (fun t => if bool_decide (TextObject.id t = selectedTextId s)
                        then assign kv t else t)) s
  /\ history (handleKeyDown (keyPress k shift) s) = history s
  /\ future (handleKeyDown (keyPress k shift) s) = future s.
Proof.
  intros Hk Hsel Hfind m kv.
  assert (Hrun : handleKeyDown (keyPress k shift) s
    = setTextObjects
        (fmap (fun t => if bool_decide (TextObject.id t = selectedTextId s)
                        then assign kv t else t)) s).
  { unfold handleKeyDown, keyPress, truthy_str. simpl.
    rewrite (bool_decide_eq_false_2 (selectedTextId s = "")) by exact Hsel.
    simpl. rewrite Hfind.
    apply elem_of_cons in Hk as [->|Hk]; [reflexivity|].
    apply elem_of_cons in Hk as [->|Hk]; [reflexivity|].
    apply elem_of_cons in Hk as [->|Hk]; [reflexivity|].
    apply elem_of_cons in Hk as [->|Hk]; [reflexivity|].
    apply elem_of_nil in Hk. contradiction. }
  rewrite Hrun. repeat split.
Qed.

(** C5 at the failing input: the selected layer is locked, yet the right
    arrow moves its anchor from 640 to 641. *)
Theorem locked_layer_is_nudged :
  selectedTextId lockedSelected = "t1"
  /\ TextObject.isLocked <$> textObjects lockedSelected = [Some true]
  /\ TextObject.x <$> textObjects lockedSelected = [num 640]
  /\ TextObject.x <$> textObjects (handleKeyDown (keyPress "ArrowRight" false) lockedSelected)
     = [num 641].
Proof.
  split; [reflexivity|]. split; [reflexivity|]. split; [reflexivity|].
  vm_compute; reflexivity.
Qed.

(** ** Degenerate inputs *)

Lemma fmap_id_absent (id : string) (f : TextObject -> TextObject) (objs : list TextObject) :
  id ∉ TextObject.id <$> objs ->
  (fun t => if bool_decide (TextObject.id t = id) then f t else t) <$> objs = objs.
Proof.
  induction objs as [|o objs IH]; intros Hnin; [reflexivity|].
  rewrite fmap_cons in Hnin. apply not_elem_of_cons in Hnin as [Hne Hnin].
  rewrite fmap_cons, IH by exact Hnin.
  rewrite bool_decide_eq_false_2 by congruence. reflexivity.
Qed.

(** C7, as the code has it.  A recorded property update whose id matches
    no layer leaves the layer sequence as it is, but it is recorded all
    the same: the current sequence is pushed onto the past stack and the
    future stack is emptied.  A reorder whose id matches no layer changes
    nothing at all, and a reorder of a layer already at the boundary it is
    moved towards leaves the layer sequence as it is. *)
Theorem degenerate_inputs (s : State) (id : string) (kv : KeyValue) (dir : string) :
  (id ∉ TextObject.id <$> textObjects s ->
     textObjects (updateObject id kv true s) = textObjects s
     /\ history (updateObject id kv true s)
        = slice_last 20 (history s ++ [textObjects s])
     /\ future (updateObject id kv true s) = []
     /\ onMoveLayer id dir s = s)
  /\ (forall t,
        list_find (fun t => TextObject.id t = id) (textObjects s)
          = Some ((length (textObjects s) - 1)%nat, t) ->
        textObjects (onMoveLayer id "up" s) = textObjects s)
  /\ (forall t,
        list_find (fun t => TextObject.id t = id) (textObjects s) = Some (0%nat, t) ->
        textObjects (onMoveLayer id "down" s) = textObjects s).
Proof.
  split; [|split].
  - intros Hnin. split; [|split; [|split]]; try reflexivity.
    + unfold updateObject. simpl. apply fmap_id_absent, Hnin.
    + unfold onMoveLayer. rewrite (list_find_id_None _ _ Hnin). reflexivity.
  - intros t Hfind. unfold onMoveLayer. rewrite Hfind. simpl.
    rewrite (bool_decide_eq_false_2 (_ < _)%nat) by lia. reflexivity.
  - intros t Hfind. unfold onMoveLayer. rewrite Hfind. simpl. reflexivity.
Qed.

Lemma degenerate_inputs_witness :
  textObjects (updateObject "gone" (kv_rotation (num 45)) true twoLayers)
    = textObjects twoLayers
  /\ onMoveLayer "gone" "up" twoLayers = twoLayers
  /\ textObjects (onMoveLayer "top" "up" twoLayers) = textObjects twoLayers
  /\ textObjects (onMoveLayer "low" "down" twoLayers) = textObjects twoLayers.
Proof.
  destruct (degenerate_inputs twoLayers "gone" (kv_rotation (num 45)) "up") as [H _].
  destruct H as (H1 & _ & _ & H2).
  { vm_compute. intros H. repeat (apply elem_of_cons in H as [H|H]; [discriminate H|]).
    apply elem_of_nil in H. exact H. }
  split; [exact H1|]. split; [exact H2|]. split.
  - apply (proj1 (proj2 (degenerate_inputs twoLayers "top" (kv_rotation (num 45)) "up"))
             (plainLayer "top" "B" 640 360)).
    reflexivity.
  - apply (proj2 (proj2 (degenerate_inputs twoLayers "low" (kv_rotation (num 45)) "up"))
             (plainLayer "low" "A" 600 300)).
    reflexivity.
Defined.

(** C7 as stated fails: an update aimed at an id no layer has still grows
    the past stack, and it wipes a pending redo. *)
Lemma unknown_id_update_counterexample :
  history (updateObject "gone" (kv_rotation (num 45)) true sceneX) <> history sceneX
  /\ future (updateObject "gone" (kv_rotation (num 45)) true (undoN 1 afterAdd))
     <> future (undoN 1 afterAdd).
Proof.
  split.
  - intros H. apply (f_equal length) in H. vm_compute in H. discriminate H.
  - intros H. apply (f_equal length) in H. vm_compute in H. discriminate H.
Qed.

(** ** Layer ids *)

Lemma pretty_N_char_digit (x : N) : is_digit (pretty_N_char x) = true.
Proof. unfold pretty_N_char. repeat case_match; reflexivity. Qed.

Lemma pretty_N_go_digits (x : N) :
  forall s, all_digits s = true -> all_digits (pretty_N_go x s) = true.
Proof.
  induction (N.lt_wf_0 x) as [x _ IH]. intros s Hs.
  destruct (decide (x = 0%N)) as [->|Hx].
  - rewrite pretty_N_go_0. exact Hs.
  - rewrite pretty_N_go_step by lia. apply IH.
    + apply N.div_lt; lia.
    + simpl. rewrite pretty_N_char_digit, Hs. reflexivity.
Qed.

Lemma pretty_N_digits (x : N) : all_digits (pretty x) = true.
Proof.
  unfold pretty, pretty_N. case_decide; [reflexivity|].
  apply pretty_N_go_digits. reflexivity.
Qed.

Lemma append_nil_l (s : string) : "" +:+ s = s.
Proof. reflexivity. Qed.

Lemma append_cons (c : ascii) (u s : string) : String c u +:+ s = String c (u +:+ s).
Proof. reflexivity. Qed.

(** Two strings of digits followed by an underscore agree as soon as the
    whole strings agree: the first underscore marks where the digits end. *)
Lemma digits_underscore_split (u u' v v' : string) :
  all_digits u = true -> all_digits u' = true ->
  u +:+ "_" +:+ v = u' +:+ "_" +:+ v' ->
  u = u' /\ v = v'.
Proof.
  revert u'. induction u as [|c u IH]; intros [|c' u'] Hu Hu';
    repeat (rewrite append_nil_l || rewrite append_cons); simpl in Hu, Hu'.
  - intros [= ->]. split; reflexivity.
  - intros [= <- _]. apply andb_prop in Hu' as [Hc _]. discriminate Hc.
  - intros [= -> _]. apply andb_prop in Hu as [Hc _]. discriminate Hc.
  - intros [= -> Hrest].
    apply andb_prop in Hu as [_ Hu]. apply andb_prop in Hu' as [_ Hu'].
    destruct (IH u' Hu Hu' Hrest) as [-> ->]. split; reflexivity.
Qed.

Lemma template_id_inj (now now' : N) (i j : nat) :
  template_id now i = template_id now' j -> now = now' /\ i = j.
Proof.
  unfold template_id. repeat (rewrite append_nil_l || rewrite append_cons).
  intros [= H].
  apply digits_underscore_split in H as [Hnow Hi];
    [|apply pretty_N_digits..].
  split; [apply (inj pretty), Hnow | apply (inj pretty), Hi].
Qed.

(** The id of an added layer, ["t"] followed by digits, is never a
    template id, which goes on with an underscore. *)
Lemma added_id_not_template (now now' : N) (i : nat) :
  "t" +:+ pretty now <> template_id now' i.
Proof.
  unfold template_id. repeat (rewrite append_nil_l || rewrite append_cons).
  intros [= H].
  pose proof (pretty_N_digits now) as Hd.
  destruct (pretty now) as [|c r]; [discriminate H|].
  injection H as -> _. discriminate Hd.
Qed.

(** ** Templates *)

Lemma or_str_taken (supplied : option string) (d : string) :
  taken_str supplied d (or_str supplied d).
Proof.
  destruct supplied as [v|]; simpl; [|reflexivity].
  intros Hv. unfold truthy_str. rewrite bool_decide_eq_false_2 by exact Hv. reflexivity.
Qed.

Lemma or_num_taken (supplied : option Qc) (d : Qc) :
  taken_num supplied d (or_num supplied d).
Proof.
  destruct supplied as [v|]; simpl; [|reflexivity].
  intros Hv. unfold truthy_num. rewrite bool_decide_eq_false_2; [reflexivity|].
  intros E. apply Hv. rewrite E. apply Qc_is_canon. reflexivity.
Qed.

Lemma applied_objects (tpl : CanvasTemplate) (clock : nat -> N) (s : State) :
  textObjects (handleApplyTemplate tpl true clock s)
    = imap (fun i obj => fromTemplate (clock i) i obj) (CanvasTemplate.objects tpl).
Proof.
  unfold handleApplyTemplate.
  destruct (imap _ (CanvasTemplate.objects tpl)); reflexivity.
Qed.

Lemma applied_stacks (tpl : CanvasTemplate) (clock : nat -> N) (s : State) :
  history (handleApplyTemplate tpl true clock s)
    = slice_last 20 (history s ++ [textObjects s])
  /\ future (handleApplyTemplate tpl true clock s) = [].
Proof. apply (run_recorded (ApplyTemplate tpl clock) s). reflexivity. Qed.

Lemma applied_ids (defs : list Partial.t) (clock : nat -> N) (i : nat) (id : string) :
  (TextObject.id <$> imap (fun i obj => fromTemplate (clock i) i obj) defs) !! i = Some id ->
  (i < length defs)%nat /\ id = template_id (clock i) i.
Proof.
  rewrite list_lookup_fmap, list_lookup_imap.
  destruct (defs !! i) as [obj|] eqn:Hobj; simpl; [|discriminate].
  intros [= <-]. split; [eapply lookup_lt_Some; exact Hobj | reflexivity].
Qed.

Lemma applied_ids_NoDup (defs : list Partial.t) (clock : nat -> N) :
  NoDup (TextObject.id <$> imap (fun i obj => fromTemplate (clock i) i obj) defs).
Proof.
  apply NoDup_alt. intros i j id Hi Hj.
  apply applied_ids in Hi as [_ ->]. apply applied_ids in Hj as [_ Hj].
  apply template_id_inj in Hj as [_ Hij]. exact Hij.
Qed.

Lemma undo_after_push (s s' : State) :
  history s' = slice_last 20 (history s ++ [textObjects s]) ->
  textObjects (handleUndo s') = textObjects s.
Proof.
  intros H. rewrite slice_last_app in H by (simpl; lia).
  rewrite (handleUndo_snoc s' _ _ H). reflexivity.
Qed.

Lemma applied_ids_exact (defs : list Partial.t) (clock : nat -> N) (id : string) :
  id ∉ TextObject.id <$> imap (fun i obj => fromTemplate (clock i) i obj) defs
  <-> forall i, (i < length defs)%nat -> id <> template_id (clock i) i.
Proof.
  split.
  - intros Hnot i Hi Hid. apply Hnot.
    destruct (lookup_lt_is_Some_2 defs i Hi) as [obj Hobj].
    apply list_elem_of_lookup. exists i.
    rewrite list_lookup_fmap, list_lookup_imap, Hobj. simpl. rewrite Hid. reflexivity.
  - intros Hall Hin. apply list_elem_of_lookup in Hin as [i Hi].
    apply applied_ids in Hi as [Hlt Hid]. exact (Hall i Hlt Hid).
Qed.

(** C6, as the code has it.  A confirmed template application replaces the
    whole layer sequence with one layer per definition, each under the id
    [t_<clock>_<index>] (pairwise distinct), records it as one undoable
    step, and selects the first new layer.  A layer of the old scene keeps
    its id out of the new scene exactly when that id is none of the ids
    just built; an id that does not begin with [t_] never is.  In each new
    layer the font family, the shadow, opacity 1, line height 1.2,
    unlocked, visible and centered are set whatever the template says;
    text, position, font size, colors, stroke width, highlight color and
    scale and rotation are the template's when it supplies a non-empty
    string or a non-zero number and the defaults when it omits them; the
    highlight words are the template's or none; the dragging flag and the
    z-index are copied.  An unconfirmed application changes nothing.  A
    three-layer template applied over a one-layer scene therefore leaves
    exactly three layers, the first of them selected, and none has the old
    id unless the old id is one of the three built. *)
Theorem apply_template_spec (tpl : CanvasTemplate) (clock : nat -> N) (s : State) :
  let defs := CanvasTemplate.objects tpl in
  let s' := handleApplyTemplate tpl true clock s in
  handleApplyTemplate tpl false clock s = s
  /\ length (textObjects s') = length defs
  /\ NoDup (TextObject.id <$> textObjects s')
  /\ (forall old, old ∈ textObjects s ->
        TextObject.id old ∉ TextObject.id <$> textObjects s'
        <-> forall i, (i < length defs)%nat ->
              TextObject.id old <> "t_" +:+ pretty (clock i) +:+ "_" +:+ pretty i)
  /\ (forall old, old ∈ textObjects s ->
        (forall rest, TextObject.id old <> "t_" +:+ rest) ->
        TextObject.id old ∉ TextObject.id <$> textObjects s')
  /\ (forall i obj, defs !! i = Some obj ->
        exists t, textObjects s' !! i = Some t
          /\ TextObject.id t = "t_" +:+ pretty (clock i) +:+ "_" +:+ pretty i
          /\ TextObject.fontFamily t = "Cairo"
          /\ TextObject.shadowColor t = "rgba(0,0,0,0.8)"
          /\ TextObject.shadowBlur t = num 10
          /\ TextObject.opacity t = num 1
          /\ TextObject.lineHeight t = dec 12 10
          /\ TextObject.isLocked t = Some false
          /\ TextObject.isHidden t = Some false
          /\ TextObject.align t = align_center
          /\ taken_str (Partial.text obj) "نص" (TextObject.text t)
          /\ taken_num (Partial.x obj) (num 640) (TextObject.x t)
          /\ taken_num (Partial.y obj) (num 360) (TextObject.y t)
          /\ taken_num (Partial.fontSize obj) (num 60) (TextObject.fontSize t)
          /\ taken_str (Partial.color obj) "#fff" (TextObject.color t)
          /\ taken_str (Partial.strokeColor obj) "#000" (TextObject.strokeColor t)
          /\ taken_num (Partial.strokeWidth obj) (num 2) (TextObject.strokeWidth t)
          /\ taken_str (Partial.highlightColor obj) "#fbbf24" (TextObject.highlightColor t)
          /\ taken_num (Partial.highlightScale obj) (dec 11 10) (TextObject.highlightScale t)
          /\ taken_num (Partial.rotation obj) (num 0) (TextObject.rotation t)
          /\ TextObject.highlightWords t = default [] (Partial.highlightWords obj)
          /\ TextObject.isDragging t = Partial.isDragging obj
          /\ TextObject.zIndex t = Partial.zIndex obj)
  /\ (defs <> [] ->
        selectedTextId s' = "t_" +:+ pretty (clock 0%nat) +:+ "_" +:+ pretty 0%nat
        /\ TextObject.id <$> head (textObjects s') = Some (selectedTextId s'))
  /\ history s' = slice_last 20 (history s ++ [textObjects s])
  /\ future s' = []
  /\ textObjects (handleUndo s') = textObjects s
  /\ (forall old, textObjects s = [old] -> length defs = 3%nat ->
        length (textObjects s') = 3%nat
        /\ TextObject.id <$> head (textObjects s') = Some (selectedTextId s')
        /\ ((forall i, (i < 3)%nat ->
               TextObject.id old <> "t_" +:+ pretty (clock i) +:+ "_" +:+ pretty i) ->
            TextObject.id old ∉ TextObject.id <$> textObjects s')).
Proof.
  intros defs s'.
  pose proof (applied_objects tpl clock s) as Hobjs. fold defs s' in Hobjs.
  destruct (applied_stacks tpl clock s) as [Hhist Hfut]. fold s' in Hhist, Hfut.
  assert (Hlen : length (textObjects s') = length defs)
    by (rewrite Hobjs; apply length_imap).
  assert (Hfresh : forall id,
            id ∉ TextObject.id <$> textObjects s'
            <-> forall i, (i < length defs)%nat -> id <> template_id (clock i) i).
  { intros id. rewrite Hobjs. apply applied_ids_exact. }
  assert (Hsel : defs <> [] ->
            selectedTextId s' = template_id (clock 0%nat) 0
            /\ TextObject.id <$> head (textObjects s') = Some (selectedTextId s')).
  { intros Hne. rewrite Hobjs. unfold s', handleApplyTemplate. fold defs.
    destruct defs as [|first rest]; [contradiction|]. split; reflexivity. }
  split; [reflexivity|]. split; [exact Hlen|].
  split; [rewrite Hobjs; apply applied_ids_NoDup|].
  split; [intros old _; apply Hfresh|].
  split; [intros old _ Hshape; apply Hfresh; intros i _; apply Hshape|].
  split.
  { intros i obj Hi. exists (fromTemplate (clock i) i obj).
    split; [rewrite Hobjs, list_lookup_imap, Hi; reflexivity|].
    simpl. repeat (split; [first [reflexivity | apply or_str_taken | apply or_num_taken]|]).
    reflexivity. }
  split; [exact Hsel|]. split; [exact Hhist|]. split; [exact Hfut|].
  split; [apply undo_after_push, Hhist|].
  intros old Hold Hthree. split; [lia|]. split.
  - apply Hsel. intros E. rewrite E in Hthree. discriminate Hthree.
  - intros Hnew. apply Hfresh. rewrite Hthree. exact Hnew.
Qed.

(** The built-in three-layer template over the host's one-layer scene. *)
Lemma apply_template_spec_witness :
  length (textObjects (handleApplyTemplate t_vs true (frozenClock 1700000000000) sceneX))
    = 3%nat
  /\ ("t1" ∉ TextObject.id <$>
       textObjects (handleApplyTemplate t_vs true (frozenClock 1700000000000) sceneX))
  /\ selectedTextId (handleApplyTemplate t_vs true (frozenClock 1700000000000) sceneX)
     = "t_1700000000000_0".
Proof.
  destruct (apply_template_spec t_vs (frozenClock 1700000000000) sceneX)
    as (_ & _ & _ & _ & _ & _ & Hsel & _ & _ & _ & Hthree).
  destruct (Hthree (plainLayer "t1" "X" 640 360) eq_refl eq_refl) as (H3 & _ & Hold).
  split; [exact H3|]. split.
  - apply Hold. intros i _. exact (added_id_not_template 1 1700000000000 i).
  - destruct Hsel as [Hs _]; [discriminate|]. rewrite Hs. reflexivity.
Defined.

(** C6 as stated fails: the template supplies a font family, an opacity
    and an alignment of its own, and none of them is preserved.  The new
    ids are fresh only as far as the clock is: when it reads the same
    millisecond as at the application that built the old layer, the first
    new layer carries the old layer's id. *)
Lemma supplied_style_counterexample :
  Partial.fontFamily <$> CanvasTemplate.objects styledTemplate = [Some "Oswald"]
  /\ TextObject.fontFamily <$>
       textObjects (handleApplyTemplate styledTemplate true (frozenClock 1700000000000) sceneX)
     = ["Cairo"]
  /\ Partial.align <$> CanvasTemplate.objects styledTemplate = [Some align_left]
  /\ TextObject.align <$>
       textObjects (handleApplyTemplate styledTemplate true (frozenClock 1700000000000) sceneX)
     = [align_center]
  /\ TextObject.fontFamily <$>
       textObjects (handleApplyTemplate styledTemplate true (frozenClock 1700000000000) sceneX)
     <> ["Oswald"]
  /\ TextObject.id <$>
       textObjects (handleApplyTemplate styledTemplate true (frozenClock 1700000000000) sceneX)
     = ["t_1700000000000_0"]
  /\ TextObject.id <$>
       textObjects (handleApplyTemplate t_vs true (frozenClock 1700000000000)
                      (handleApplyTemplate styledTemplate true (frozenClock 1700000000000)
                         sceneX))
     = ["t_1700000000000_0"; "t_1700000000000_1"; "t_1700000000000_2"].
Proof.
  split; [reflexivity|]. split; [reflexivity|]. split; [reflexivity|].
  split; [reflexivity|]. split; [discriminate|]. split; vm_compute; reflexivity.
Qed.

(** C10.  A confirmed application of a template without layer definitions
    empties the scene and leaves the selection id as it was, so the
    selection names no layer of the scene any more; a template with at
    least one definition moves the selection to its first new layer. *)
Theorem empty_template_keeps_selection (tpl : CanvasTemplate) (clock : nat -> N) (s : State) :
  let s' := handleApplyTemplate tpl true clock s in
  (CanvasTemplate.objects tpl = [] ->
     textObjects s' = []
     /\ selectedTextId s' = selectedTextId s
     /\ find_by_id (selectedTextId s') (textObjects s') = None)
  /\ (forall first rest, CanvasTemplate.objects tpl = first :: rest ->
        selectedTextId s' = template_id (clock 0%nat) 0
        /\ exists t, textObjects s' !! 0%nat = Some t
                     /\ TextObject.id t = selectedTextId s').
Proof.
  intros s'. split.
  - intros Hempty. unfold s', handleApplyTemplate. rewrite Hempty. simpl.
    repeat split.
  - intros first rest Hdefs. unfold s', handleApplyTemplate. rewrite Hdefs. simpl.
    split; [reflexivity|]. eexists. split; reflexivity.
Qed.

(** The host's scene has its only layer selected; after the blank template
    the selection still says ["t1"] and no layer answers to it. *)
Lemma empty_template_keeps_selection_witness :
  find_by_id (selectedTextId sceneX) (textObjects sceneX)
    = Some (plainLayer "t1" "X" 640 360)
  /\ textObjects (handleApplyTemplate emptyTemplate true (frozenClock 1700000000000) sceneX)
     = []
  /\ selectedTextId (handleApplyTemplate emptyTemplate true (frozenClock 1700000000000) sceneX)
     = "t1"
  /\ find_by_id
       (selectedTextId (handleApplyTemplate emptyTemplate true (frozenClock 1700000000000) sceneX))
       (textObjects (handleApplyTemplate emptyTemplate true (frozenClock 1700000000000) sceneX))
     = None.
Proof.
  split; [reflexivity|].
  destruct (proj1 (empty_template_keeps_selection emptyTemplate
                     (frozenClock 1700000000000) sceneX) eq_refl)
    as (Hobjs & Hsel & Hfind).
  split; [exact Hobjs|]. split; [exact Hsel | exact Hfind].
Defined.

(** ** Word emphasis and advance *)

Lemma num_0 : num 0 = 0.
Proof. reflexivity. Qed.

Lemma foldl_width_acc (ms : list WordMetric) (a : Qc) :
  foldl (fun acc m => acc + width m) a ms
    = a + foldl (fun acc m => acc + width m) (num 0) ms.
Proof.
  revert a. induction ms as [|m ms IH]; intros a; simpl.
  - rewrite num_0. ring.
  - rewrite (IH (a + width m)), (IH (num 0 + width m)), num_0. ring.
Qed.

Lemma totalLineWidth_cons (m : WordMetric) (ms : list WordMetric) :
  totalLineWidth (m :: ms) = width m + totalLineWidth ms.
Proof.
  unfold totalLineWidth. simpl. rewrite foldl_width_acc, num_0. ring.
Qed.

Lemma totalLineWidth_snoc (ms : list WordMetric) (m : WordMetric) :
  totalLineWidth (ms ++ [m]) = totalLineWidth ms + width m.
Proof. unfold totalLineWidth. rewrite foldl_app. reflexivity. Qed.

(** The [k]-th word is drawn at the start position plus the widths of the
    words before it. *)
Lemma drawWords_lookup (obj : TextObject) (lineY : Qc) (ms : list WordMetric) :
  forall (drawX : Qc) (k : nat) (m : WordMetric),
    ms !! k = Some m ->
    drawWords obj lineY drawX ms !! k
      = Some {| dw_word := word m;
                dw_x := drawX + totalLineWidth (take k ms);
                dw_y := lineY;
                dw_size := size m;
                dw_fillStyle := if isHigh m then TextObject.highlightColor obj
                                else TextObject.color obj |}.
Proof.
  induction ms as [|m0 ms IH]; intros drawX k m Hk; [discriminate|].
  destruct k as [|k]; simpl in *.
  - injection Hk as ->. do 2 f_equal. unfold totalLineWidth. simpl.
    rewrite num_0. ring.
  - rewrite (IH _ _ _ Hk). do 2 f_equal.
    rewrite totalLineWidth_cons. ring.
Qed.

Lemma drawWords_length (obj : TextObject) (lineY : Qc) (ms : list WordMetric) :
  forall drawX, length (drawWords obj lineY drawX ms) = length ms.
Proof.
  induction ms as [|m ms IH]; intros drawX; simpl; [reflexivity|].
  f_equal. apply IH.
Qed.

(** C9, as the code has it.  A word is emphasized when, trimmed and with
    its punctuation removed, it is one of the layer's highlight words; an
    emphasized word is measured and drawn at [fontSize * highlightScale],
    any other word at [fontSize].  The width recorded for a word, by which
    the pen advances after drawing it, is the measured width of the word
    followed by one space in the font size the word is drawn at.  For
    ["HELLO WORLD"] with ["WORLD"] highlighted at scale 1.5 and font size
    40, the advance of ["WORLD"] is the measured width of ["WORLD "] at
    font size 60. *)
Theorem emphasized_word_advance (measureText : Qc -> string -> string -> Qc)
    (obj : TextObject) (line : string) (lineY drawX : Qc) :
  let ms := wordMetrics measureText obj line in
  (forall k m, ms !! k = Some m ->
     lineWords line !! k = Some (word m)
     /\ isHigh m
        = bool_decide (stripPunct (trim (word m)) ∈ TextObject.highlightWords obj)
     /\ size m = (if isHigh m
                  then TextObject.fontSize obj * TextObject.highlightScale obj
                  else TextObject.fontSize obj)
     /\ width m = measureText (size m) (TextObject.fontFamily obj) (word m +:+ " ")
     /\ (exists d, drawWords obj lineY drawX ms !! k = Some d
           /\ dw_word d = word m /\ dw_size d = size m
           /\ dw_x d = drawX + totalLineWidth (take k ms))
     /\ (forall d', drawWords obj lineY drawX ms !! S k = Some d' ->
           dw_x d' = drawX + totalLineWidth (take k ms) + width m))
  /\ (TextObject.fontSize obj = num 40 ->
      TextObject.highlightScale obj = dec 3 2 ->
      TextObject.highlightWords obj = ["WORLD"] ->
      wordMetrics measureText obj "HELLO WORLD"
        = [ {| word := "HELLO";
               width := measureText (num 40) (TextObject.fontFamily obj) "HELLO ";
               size := num 40; isHigh := false |};
            {| word := "WORLD";
               width := measureText (num 60) (TextObject.fontFamily obj) "WORLD ";
               size := num 60; isHigh := true |} ]).
Proof.
  intros ms. split.
  - intros k m Hk.
    assert (Hw : exists w, lineWords line !! k = Some w /\ m = wordMetric measureText obj w).
    { unfold ms, wordMetrics in Hk. rewrite list_lookup_fmap in Hk.
      destruct (lineWords line !! k) as [w|]; [|discriminate].
      injection Hk as <-. exists w. split; reflexivity. }
    destruct Hw as (w & Hw & ->). simpl.
    split; [exact Hw|]. split; [reflexivity|]. split; [reflexivity|].
    split; [reflexivity|]. split.
    + eexists. split; [apply drawWords_lookup, Hk|]. repeat split.
    + intros d' Hd'.
      assert (Hlt : (S k < length ms)%nat).
      { rewrite <- (drawWords_length obj lineY ms drawX).
        eapply lookup_lt_Some. exact Hd'. }
      destruct (lookup_lt_is_Some_2 ms (S k) Hlt) as [m' Hm'].
      rewrite (drawWords_lookup obj lineY ms drawX (S k) m' Hm') in Hd'.
      injection Hd' as <-. simpl.
      rewrite (take_S_r ms k _ Hk), totalLineWidth_snoc. simpl. ring.
  - intros Hsize Hscale Hwords.
    unfold wordMetrics.
    change (lineWords "HELLO WORLD") with ["HELLO"; "WORLD"].
    unfold wordMetric. simpl fmap. rewrite Hsize, Hscale, Hwords.
    change (stripPunct (trim "HELLO")) with "HELLO".
    change (stripPunct (trim "WORLD")) with "WORLD".
    rewrite (bool_decide_eq_false_2 ("HELLO" ∈ ["WORLD"])).
    2:{ intros H. apply list_elem_of_singleton in H. discriminate H. }
    rewrite (bool_decide_eq_true_2 ("WORLD" ∈ ["WORLD"])) by (apply list_elem_of_singleton; reflexivity).
    replace (num 40 * dec 3 2) with (num 60) by (apply Qc_is_canon; reflexivity).
    reflexivity.
Qed.

(** The example layer under a fixed-pitch font. *)
Lemma emphasized_word_advance_witness :
  wordMetrics monospace helloWorld "HELLO WORLD"
    = [ {| word := "HELLO"; width := monospace (num 40) "Cairo" "HELLO ";
           size := num 40; isHigh := false |};
        {| word := "WORLD"; width := monospace (num 60) "Cairo" "WORLD ";
           size := num 60; isHigh := true |} ].
Proof.
  apply (proj2 (emphasized_word_advance monospace helloWorld "" (num 0) (num 0)));
    reflexivity.
Defined.

(** C9 as stated fails: under the fixed-pitch font the pen advances by 216
    after ["WORLD"], the width of the six characters of ["WORLD "] at size
    60, while the measured width of ["WORLD"] itself at size 60 is 180. *)
Lemma advance_includes_space_counterexample :
  width <$> wordMetrics monospace helloWorld "HELLO WORLD" !! 1%nat = Some (num 216)
  /\ monospace (num 60) "Cairo" "WORLD" = num 180
  /\ width <$> wordMetrics monospace helloWorld "HELLO WORLD" !! 1%nat
     <> Some (monospace (num 60) "Cairo" "WORLD").
Proof.
  assert (H1 : width <$> wordMetrics monospace helloWorld "HELLO WORLD" !! 1%nat
               = Some (num 216)).
  { vm_compute. reflexivity. }
  assert (H2 : monospace (num 60) "Cairo" "WORLD" = num 180).
  { apply Qc_is_canon. reflexivity. }
  split; [exact H1|]. split; [exact H2|].
  rewrite H1, H2. intros E. apply (f_equal (fmap this)) in E.
  vm_compute in E. discriminate E.
Qed.

(** * Further properties of the workspace *)

(** ** Undo and redo along the timeline *)

Lemma state_eta (s : State) :
  s = mkState (textObjects s) (selectedTextId s) (history s) (future s)
              (dragOffset s) (snapLines s) (isFullScreen s).
Proof. destruct s; reflexivity. Qed.

Lemma last_is_Some_snoc {A} (l : list A) (x : A) :
  last l = Some x -> exists h, l = h ++ [x].
Proof.
  intros H. destruct l as [|a l] using rev_ind; [discriminate|].
  rewrite last_snoc in H. injection H as ->. exists l. reflexivity.
Qed.

Lemma handleRedo_handleUndo (s : State) :
  history s <> [] -> handleRedo (handleUndo s) = s.
Proof.
  intros Hne. destruct (last (history s)) as [previous|] eqn:Hlast.
  - apply last_is_Some_snoc in Hlast as [h Hh].
    rewrite (handleUndo_snoc s h previous Hh).
    erewrite handleRedo_cons by reflexivity. simpl.
    rewrite <- Hh. symmetry. apply state_eta.
  - apply last_None in Hlast. contradiction.
Qed.

Lemma handleUndo_handleRedo (s : State) :
  future s <> [] -> handleUndo (handleRedo s) = s.
Proof.
  intros Hne. destruct (future s) as [|next f] eqn:Hf; [contradiction|].
  rewrite (handleRedo_cons s next f Hf).
  erewrite handleUndo_snoc by reflexivity. simpl.
  rewrite <- Hf. symmetry. apply state_eta.
Qed.

(** X1.  Undo and redo only move the current position along one fixed
    timeline: the past stack, the current layer sequence and the future
    stack, read in this order, are the same list before and after. *)
Theorem undo_redo_keep_timeline (s : State) :
  timeline (handleUndo s) = timeline s
  /\ timeline (handleRedo s) = timeline s
  /\ (forall n, timeline (undoN n s) = timeline s)
  /\ (forall n, timeline (redoN n s) = timeline s).
Proof.
  assert (Hu : forall s, timeline (handleUndo s) = timeline s).
  { clear s. intros s. unfold timeline.
    destruct (last (history s)) as [previous|] eqn:Hlast.
    - apply last_is_Some_snoc in Hlast as [h Hh].
      rewrite (handleUndo_snoc s h previous Hh), Hh. simpl.
      rewrite <- app_assoc. reflexivity.
    - apply last_None in Hlast. rewrite handleUndo_nil by exact Hlast. reflexivity. }
  assert (Hr : forall s, timeline (handleRedo s) = timeline s).
  { clear s. intros s. unfold timeline.
    destruct (future s) as [|next f] eqn:Hf.
    - rewrite handleRedo_nil by exact Hf. rewrite Hf. reflexivity.
    - rewrite (handleRedo_cons s next f Hf). simpl.
      rewrite <- app_assoc. reflexivity. }
  split; [apply Hu|]. split; [apply Hr|]. split.
  - intros n. revert s. induction n as [|n IH]; intros s; simpl; [reflexivity|].
    rewrite IH. apply Hu.
  - intros n. revert s. induction n as [|n IH]; intros s; simpl; [reflexivity|].
    rewrite IH. apply Hr.
Qed.

Lemma redoN_handleRedo (n : nat) (s : State) :
  redoN n (handleRedo s) = handleRedo (redoN n s).
Proof.
  revert s. induction n as [|n IH]; intros s; simpl; [reflexivity|]. apply IH.
Qed.

Lemma undoN_handleUndo (n : nat) (s : State) :
  undoN n (handleUndo s) = handleUndo (undoN n s).
Proof.
  revert s. induction n as [|n IH]; intros s; simpl; [reflexivity|]. apply IH.
Qed.

Lemma handleUndo_history_length (s : State) :
  length (history (handleUndo s)) = (length (history s) - 1)%nat.
Proof.
  destruct (last (history s)) as [previous|] eqn:Hlast.
  - apply last_is_Some_snoc in Hlast as [h Hh].
    rewrite (handleUndo_snoc s h previous Hh), Hh, length_app. simpl. lia.
  - apply last_None in Hlast. rewrite handleUndo_nil, Hlast by exact Hlast. reflexivity.
Qed.

Lemma handleRedo_future_length (s : State) :
  length (future (handleRedo s)) = (length (future s) - 1)%nat.
Proof.
  destruct (future s) as [|next f] eqn:Hf.
  - rewrite handleRedo_nil, Hf by exact Hf. reflexivity.
  - rewrite (handleRedo_cons s next f Hf). simpl. lia.
Qed.

(** X2.  As long as the stacks are deep enough, [n] undos followed by [n]
    redos, and [n] redos followed by [n] undos, give back the very state
    they started from. *)
Theorem undo_redo_round_trip (n : nat) (s : State) :
  ((n <= length (history s))%nat -> redoN n (undoN n s) = s)
  /\ ((n <= length (future s))%nat -> undoN n (redoN n s) = s).
Proof.
  split.
  - revert s. induction n as [|n IH]; intros s Hn; simpl; [reflexivity|].
    rewrite redoN_handleRedo, IH.
    + apply handleRedo_handleUndo. intros E. rewrite E in Hn. simpl in Hn. lia.
    + rewrite handleUndo_history_length. lia.
  - revert s. induction n as [|n IH]; intros s Hn; simpl; [reflexivity|].
    rewrite undoN_handleUndo, IH.
    + apply handleUndo_handleRedo. intros E. rewrite E in Hn. simpl in Hn. lia.
    + rewrite handleRedo_future_length. lia.
Qed.

Lemma undo_redo_round_trip_witness :
  redoN 3 (undoN 3 (runAll addRotateDelete sceneX)) = runAll addRotateDelete sceneX
  /\ undoN 2 (redoN 2 (undoN 3 (runAll addRotateDelete sceneX)))
     = undoN 3 (runAll addRotateDelete sceneX).
Proof.
  split.
  - apply (proj1 (undo_redo_round_trip 3 (runAll addRotateDelete sceneX))).
    vm_compute. lia.
  - apply (proj2 (undo_redo_round_trip 2 (undoN 3 (runAll addRotateDelete sceneX)))).
    vm_compute. lia.
Defined.

(** ** Editing keeps the layers in place *)

Lemma assign_id (kv : KeyValue) (t : TextObject) :
  setsId kv = false -> TextObject.id (assign kv t) = TextObject.id t.
Proof. destruct kv, t; simpl; intros H; (discriminate H || reflexivity). Qed.

Lemma fmap_cond_ids (c : TextObject -> bool) (f : TextObject -> TextObject)
    (objs : list TextObject) :
  (forall t, TextObject.id (f t) = TextObject.id t) ->
  TextObject.id <$> ((fun t => if c t then f t else t) <$> objs) = TextObject.id <$> objs.
Proof.
  intros Hf. rewrite <- list_fmap_compose. apply list_fmap_ext.
  intros i t _. simpl. destruct (c t); [apply Hf | reflexivity].
Qed.

Lemma find_by_id_fmap (sel : string) (f : TextObject -> TextObject)
    (objs : list TextObject) :
  (forall t, TextObject.id (f t) = TextObject.id t) ->
  find_by_id sel (f <$> objs) = f <$> find_by_id sel objs.
Proof.
  intros Hf. unfold find_by_id.
  induction objs as [|o objs IH]; [reflexivity|].
  rewrite fmap_cons. cbn [list_find].
  rewrite Hf. destruct (decide (TextObject.id o = sel)); [reflexivity|].
  destruct (list_find _ (f <$> objs)) as [[i x]|];
    destruct (list_find _ objs) as [[j y]|]; simpl in *; congruence.
Qed.

Lemma updateObject_frame (id : string) (kv : KeyValue) (s : State) :
  setsId kv = false ->
  TextObject.id <$> textObjects (updateObject id kv false s) = TextObject.id <$> textObjects s
  /\ history (updateObject id kv false s) = history s
  /\ future (updateObject id kv false s) = future s
  /\ selectedTextId (updateObject id kv false s) = selectedTextId s.
Proof.
  intros Hkv. split; [|repeat split].
  unfold updateObject. simpl.
  apply (fmap_cond_ids (fun t => bool_decide (TextObject.id t = id))).
  intros t. apply assign_id, Hkv.
Qed.

Lemma handleMouseMove_frame (e : PointerEvent) (s : State) :
  TextObject.id <$> textObjects (handleMouseMove e s) = TextObject.id <$> textObjects s
  /\ history (handleMouseMove e s) = history s
  /\ future (handleMouseMove e s) = future s
  /\ selectedTextId (handleMouseMove e s) = selectedTextId s
  /\ dragOffset (handleMouseMove e s) = dragOffset s.
Proof.
  unfold handleMouseMove.
  destruct (find_by_id _ _) as [activeObj|]; [|repeat split].
  destruct (negb _ || _); [repeat split|].
  destruct (snapAxis centerX _) as [X sx], (snapAxis centerY _) as [Y sy].
  split; [|repeat split]. simpl.
  apply (fmap_cond_ids (fun t => bool_decide (TextObject.id t = selectedTextId s))).
  intros t. rewrite !assign_id by reflexivity. reflexivity.
Qed.

Lemma dragMoves_frame (es : list PointerEvent) (s : State) :
  TextObject.id <$> textObjects (dragMoves es s) = TextObject.id <$> textObjects s
  /\ history (dragMoves es s) = history s
  /\ future (dragMoves es s) = future s
  /\ selectedTextId (dragMoves es s) = selectedTextId s.
Proof.
  revert s. induction es as [|e es IH]; intros s; [repeat split|].
  unfold dragMoves in *. simpl.
  destruct (IH (handleMouseMove e s)) as (H1 & H2 & H3 & H4).
  destruct (handleMouseMove_frame e s) as (G1 & G2 & G3 & G4 & _).
  rewrite H1, H2, H3, H4. repeat split; assumption.
Qed.

(** X3.  A whole drag gesture is one undoable step.  After a pointer-down
    that hits a layer, any number of pointer moves and the pointer-up, the
    past stack holds exactly one more snapshot, the layer sequence from
    before the gesture, so one undo gives it back; the redo stack is
    empty, the hit layer is still selected, the layers are the same ones
    in the same order, and none is marked dragging. *)
Theorem drag_is_one_undo_step (e : PointerEvent) (es : list PointerEvent)
    (s : State) (obj : TextObject) :
  hitScan (textObjects s) e (length (textObjects s)) = Some obj ->
  let s' := handleMouseUp (dragMoves es (handleMouseDown e s)) in
  history s' = slice_last 20 (history s ++ [textObjects s])
  /\ future s' = []
  /\ textObjects (handleUndo s') = textObjects s
  /\ selectedTextId s' = TextObject.id obj
  /\ TextObject.id <$> textObjects s' = TextObject.id <$> textObjects s
  /\ Forall (fun t => TextObject.isDragging t = Some false) (textObjects s').
Proof.
  intros Hscan s'.
  destruct (dragMoves_frame es (handleMouseDown e s)) as (Hids & Hh & Hf & Hsel).
  assert (Hdown : history (handleMouseDown e s) = slice_last 20 (history s ++ [textObjects s])
                  /\ future (handleMouseDown e s) = []
                  /\ selectedTextId (handleMouseDown e s) = TextObject.id obj
                  /\ TextObject.id <$> textObjects (handleMouseDown e s)
                     = TextObject.id <$> textObjects s).
  { unfold handleMouseDown. rewrite Hscan. simpl. repeat split.
    apply (fmap_cond_ids (fun t => bool_decide (TextObject.id t = TextObject.id obj))).
    intros t. apply assign_id. reflexivity. }
  destruct Hdown as (Dh & Df & Dsel & Dids).
  assert (Hhist : history s' = slice_last 20 (history s ++ [textObjects s])).
  { unfold s'. simpl. rewrite Hh. exact Dh. }
  split; [exact Hhist|]. split; [unfold s'; simpl; rewrite Hf; exact Df|].
  split; [apply undo_after_push, Hhist|].
  split; [unfold s'; simpl; rewrite Hsel; exact Dsel|].
  split.
  - unfold s'. simpl. rewrite <- list_fmap_compose.
    rewrite <- Dids, <- Hids. apply list_fmap_ext. intros i t _. simpl.
    destruct t; reflexivity.
  - unfold s'. simpl. apply Forall_fmap, Forall_forall. intros t _. destruct t; reflexivity.
Qed.

Lemma drag_is_one_undo_step_witness :
  textObjects (handleUndo (handleMouseUp (dragMoves
      [ {| mouseX := num 630; mouseY := num 340 |};
        {| mouseX := num 700; mouseY := num 400 |} ]
      (handleMouseDown {| mouseX := num 620; mouseY := num 330 |} twoLayers))))
    = textObjects twoLayers
  /\ TextObject.x <$> textObjects (handleMouseUp (dragMoves
      [ {| mouseX := num 630; mouseY := num 340 |};
        {| mouseX := num 700; mouseY := num 400 |} ]
      (handleMouseDown {| mouseX := num 620; mouseY := num 330 |} twoLayers)))
    = [num 600; num 720].
Proof.
  split.
  - apply (drag_is_one_undo_step {| mouseX := num 620; mouseY := num 330 |} _ twoLayers
             (plainLayer "top" "B" 640 360)).
    reflexivity.
  - vm_compute. reflexivity.
Defined.

(** X4.  A pointer-up (or the pointer leaving the canvas) ends every
    drag: afterwards no layer is marked dragging, no snap line is shown,
    and pointer moves change nothing until the next pointer-down; a second
    pointer-up changes nothing either. *)
Theorem pointer_up_ends_drag (s : State) :
  Forall (fun t => TextObject.isDragging t = Some false) (textObjects (handleMouseUp s))
  /\ snapLines (handleMouseUp s) = (None, None)
  /\ (forall e, handleMouseMove e (handleMouseUp s) = handleMouseUp s)
  /\ (forall es, dragMoves es (handleMouseUp s) = handleMouseUp s)
  /\ handleMouseUp (handleMouseUp s) = handleMouseUp s.
Proof.
  assert (Hmove : forall e, handleMouseMove e (handleMouseUp s) = handleMouseUp s).
  { intros e. unfold handleMouseMove.
    cbn [handleMouseUp setSnapLines setTextObjects textObjects selectedTextId].
    rewrite find_by_id_fmap by (intros t; destruct t; reflexivity).
    destruct (find_by_id _ _) as [activeObj|]; [|reflexivity].
    destruct activeObj; reflexivity. }
  split; [|split; [reflexivity|split; [exact Hmove|split]]].
  - simpl. apply Forall_fmap, Forall_forall. intros t _. destruct t; reflexivity.
  - intros es. induction es as [|e es IH]; [reflexivity|].
    unfold dragMoves in *. simpl. rewrite Hmove. exact IH.
  - unfold handleMouseUp, setSnapLines, setTextObjects. simpl. f_equal.
    rewrite <- list_fmap_compose. apply list_fmap_ext.
    intros i t _. destruct t; reflexivity.
Qed.

Lemma handleKeyDown_ids (e : KeyboardEvent) (s : State) :
  keyIsStructural e = false ->
  TextObject.id <$> textObjects (handleKeyDown e s) = TextObject.id <$> textObjects s.
Proof.
  unfold keyIsStructural. intros H.
  apply orb_false_elim in H as [H Hback]. apply orb_false_elim in H as [Hzy Hdel].
  unfold handleKeyDown.
  destruct (targetIsTextEntry e); [reflexivity|].
  destruct (ctrlKey e || metaKey e); simpl in Hzy.
  - apply orb_false_elim in Hzy as [Hz Hy]. rewrite Hz, Hy. simpl.
    destruct (bool_decide (key e = "Escape")); [destruct (isFullScreen s); reflexivity|].
    destruct (truthy_str (selectedTextId s)); [|reflexivity].
    destruct (find_by_id _ _) as [activeObj|]; [|reflexivity].
    rewrite Hdel, Hback. simpl.
    repeat case_bool_decide; simpl;
      rewrite ?fmap_cond_ids by (intros t; destruct t; reflexivity); reflexivity.
  - simpl.
    destruct (bool_decide (key e = "Escape")); [destruct (isFullScreen s); reflexivity|].
    destruct (truthy_str (selectedTextId s)); [|reflexivity].
    destruct (find_by_id _ _) as [activeObj|]; [|reflexivity].
    rewrite Hdel, Hback. simpl.
    repeat case_bool_decide; simpl;
      rewrite ?fmap_cond_ids by (intros t; destruct t; reflexivity); reflexivity.
Qed.

(** X5.  Only adding, deleting, reordering, applying a template, rewriting
    an id, undo and redo can change which layers a scene has: every other
    event (pointer down, move and up, arrow keys, Escape, visibility and
    lock toggles, property edits, selection) leaves the sequence of layer
    ids, and with it the number and the order of the layers, as it was. *)
Theorem edits_keep_layer_ids (ev : Event) (s : State) :
  structural ev = false ->
  TextObject.id <$> textObjects (dispatch ev s) = TextObject.id <$> textObjects s
  /\ length (textObjects (dispatch ev s)) = length (textObjects s).
Proof.
  intros Hev.
  assert (Hids : TextObject.id <$> textObjects (dispatch ev s)
                 = TextObject.id <$> textObjects s).
  { destruct ev as [e|e|e| |op|tpl clock| | |id|kv| ]; simpl in *; try discriminate Hev;
      try reflexivity.
    - apply handleKeyDown_ids, Hev.
    - unfold handleMouseDown. destruct (hitScan _ _ _) as [obj|]; [|reflexivity]. simpl.
      apply (fmap_cond_ids (fun t => bool_decide (TextObject.id t = TextObject.id obj))).
      intros t. destruct t; reflexivity.
    - apply handleMouseMove_frame.
    - rewrite <- list_fmap_compose. apply list_fmap_ext. intros i t _.
      destruct t; reflexivity.
    - destruct op as [text now|id|id|id|id dir|id kv|tpl clock]; simpl in *;
        try discriminate Hev.
      + apply (fmap_cond_ids (fun t => bool_decide (TextObject.id t = id))
                 (fun t => assign (kv_isHidden (Some (negb (truthy_flag (TextObject.isHidden t))))) t)).
        intros t. destruct t; reflexivity.
      + apply (fmap_cond_ids (fun t => bool_decide (TextObject.id t = id))
                 (fun t => assign (kv_isLocked (Some (negb (truthy_flag (TextObject.isLocked t))))) t)).
        intros t. destruct t; reflexivity.
      + apply (fmap_cond_ids (fun t => bool_decide (TextObject.id t = id))).
        intros t. apply assign_id, Hev.
    - unfold handleUpdateTextProps. destruct (negb _); [reflexivity|]. simpl.
      apply (fmap_cond_ids (fun t => bool_decide (TextObject.id t = selectedTextId s))).
      intros t. apply assign_id, Hev. }
  split; [exact Hids|].
  apply (f_equal length) in Hids. rewrite !length_fmap in Hids. exact Hids.
Qed.

Lemma edits_keep_layer_ids_witness :
  TextObject.id <$> textObjects
      (dispatch (KeyDown (keyPress "ArrowLeft" true))
         (dispatch (Command (ToggleLocked "low"))
            (dispatch (MouseDown {| mouseX := num 620; mouseY := num 330 |}) twoLayers)))
    = ["low"; "top"].
Proof.
  rewrite (proj1 (edits_keep_layer_ids (KeyDown (keyPress "ArrowLeft" true)) _ eq_refl)).
  rewrite (proj1 (edits_keep_layer_ids (Command (ToggleLocked "low")) _ eq_refl)).
  rewrite (proj1 (edits_keep_layer_ids (MouseDown {| mouseX := num 620; mouseY := num 330 |})
                    _ eq_refl)).
  reflexivity.
Defined.

(** ** Visibility and lock flags *)





Lemma draw_cons (measureText : Qc -> string -> string -> Qc)
    (t : TextObject) (objs : list TextObject) :
  draw measureText (t :: objs) = drawObject measureText t ++ draw measureText objs.
Proof. reflexivity. Qed.

(** X7.  A hidden layer takes no part in the picture or in hit testing:
    the words drawn for a scene are those drawn for its visible layers
    alone, and the layer a pointer-down returns is never hidden (nor
    locked), whatever its other properties. *)
Theorem hidden_layers_are_inert (measureText : Qc -> string -> string -> Qc)
    (objs : list TextObject) :
  draw measureText objs
    = draw measureText
        (filter (fun t => truthy_flag (TextObject.isHidden t) = false) objs)
  /\ (forall e obj, hitScan objs e (length objs) = Some obj ->
        truthy_flag (TextObject.isHidden obj) = false
        /\ truthy_flag (TextObject.isLocked obj) = false).
Proof.
  split.
  - induction objs as [|t objs IH]; [reflexivity|].
    rewrite filter_cons, draw_cons, IH.
    destruct (decide (truthy_flag (TextObject.isHidden t) = false)) as [Hv|Hh].
    + rewrite draw_cons. reflexivity.
    + unfold drawObject. destruct (truthy_flag (TextObject.isHidden t)); [reflexivity|].
      contradiction.
  - intros e obj Hscan.
    destruct (hitScan_Some _ _ _ _ Hscan) as (i & _ & _ & Hel & _).
    unfold eligible in Hel. apply andb_prop in Hel as [Hflags _].
    apply negb_true_iff, orb_false_elim in Hflags. exact Hflags.
Qed.

(** A locked layer is drawn, a hidden one is not; the layer a pointer-down
    on [twoLayers] returns carries neither flag. *)
Lemma hidden_layers_are_inert_witness :
  draw monospace (textObjects guardedLayers)
    = drawObject monospace (assign (kv_isLocked (Some true)) (plainLayer "top" "B" 640 360))
  /\ truthy_flag (TextObject.isHidden (plainLayer "top" "B" 640 360)) = false
  /\ truthy_flag (TextObject.isLocked (plainLayer "top" "B" 640 360)) = false.
Proof.
  split.
  - rewrite (proj1 (hidden_layers_are_inert monospace (textObjects guardedLayers))).
    vm_compute. reflexivity.
  - exact (proj2 (hidden_layers_are_inert monospace (textObjects twoLayers))
             {| mouseX := num 620; mouseY := num 330 |} (plainLayer "top" "B" 640 360) eq_refl).
Defined.

(** ** Reordering *)

Lemma swap_adjacent_up {A} (l1 l2 : list A) (a b : A) :
  swap (length l1) (length l1 + 1) (l1 ++ a :: b :: l2) = l1 ++ b :: a :: l2.
Proof.
  unfold swap.
  rewrite (lookup_app_r l1) by lia. rewrite Nat.sub_diag. simpl.
  rewrite (lookup_app_r l1) by lia.
  replace (length l1 + 1 - length l1)%nat with 1%nat by lia. simpl.
  rewrite (insert_app_r_alt l1) by lia. rewrite Nat.sub_diag. simpl.
  rewrite (insert_app_r_alt l1) by lia.
  replace (length l1 + 1 - length l1)%nat with 1%nat by lia. reflexivity.
Qed.

Lemma swap_adjacent_down {A} (l1 l2 : list A) (a b : A) :
  swap (length l1 + 1) (length l1 + 1 - 1) (l1 ++ b :: a :: l2) = l1 ++ a :: b :: l2.
Proof.
  unfold swap. replace (length l1 + 1 - 1)%nat with (length l1) by lia.
  rewrite (lookup_app_r l1) by lia.
  replace (length l1 + 1 - length l1)%nat with 1%nat by lia. simpl.
  rewrite (lookup_app_r l1) by lia. rewrite Nat.sub_diag. simpl.
  rewrite (insert_app_r_alt l1) by lia.
  replace (length l1 + 1 - length l1)%nat with 1%nat by lia. simpl.
  rewrite (insert_app_r_alt l1) by lia. rewrite Nat.sub_diag. reflexivity.
Qed.

(** The layer [findIndex] stops at, with what lies below and above it. *)
Lemma list_find_split (id : string) (objs : list TextObject) (idx : nat) (a : TextObject) :
  list_find (fun t => TextObject.id t = id) objs = Some (idx, a) ->
  exists l1 l2, objs = l1 ++ a :: l2 /\ length l1 = idx
    /\ TextObject.id a = id /\ id ∉ TextObject.id <$> l1.
Proof.
  intros Hfind. apply list_find_Some in Hfind as (Hlook & Hid & Hfirst).
  exists (take idx objs), (drop (S idx) objs).
  split; [symmetry; apply take_drop_middle, Hlook|].
  split; [apply length_take_le; apply lookup_lt_Some in Hlook; lia|].
  split; [exact Hid|].
  intros Hin. apply list_elem_of_fmap in Hin as (t & Ht & Hin).
  apply list_elem_of_lookup in Hin as [j Hj].
  pose proof (lookup_lt_Some _ _ _ Hj) as Hlt. rewrite length_take in Hlt.
  rewrite lookup_take_lt in Hj by lia.
  apply (Hfirst j t Hj); [lia | symmetry; exact Ht].
Qed.

Lemma list_find_at (id : string) (l1 l2 : list TextObject) (a : TextObject) :
  TextObject.id a = id -> id ∉ TextObject.id <$> l1 ->
  list_find (fun t => TextObject.id t = id) (l1 ++ a :: l2) = Some (length l1, a).
Proof.
  intros Hid Hnin. apply list_find_Some. split; [|split].
  - rewrite lookup_app_r by lia. rewrite Nat.sub_diag. reflexivity.
  - exact Hid.
  - intros j y Hj Hlt Hy. apply Hnin. apply list_elem_of_fmap. exists y.
    split; [symmetry; exact Hy|].
    rewrite lookup_app_l in Hj by exact Hlt. eapply list_elem_of_lookup_2. exact Hj.
Qed.

Lemma onMoveLayer_up (id : string) (s : State) (l1 l2 : list TextObject) (a b : TextObject) :
  textObjects s = l1 ++ a :: b :: l2 ->
  TextObject.id a = id -> id ∉ TextObject.id <$> l1 ->
  textObjects (onMoveLayer id "up" s) = l1 ++ b :: a :: l2.
Proof.
  intros Hobjs Hid Hnin. unfold onMoveLayer.
  rewrite Hobjs, (list_find_at id l1 (b :: l2) a Hid Hnin). simpl.
  rewrite bool_decide_eq_true_2 by (rewrite length_app; simpl; lia).
  apply swap_adjacent_up.
Qed.

Lemma onMoveLayer_down (id : string) (s : State) (l1 l2 : list TextObject) (a b : TextObject) :
  textObjects s = l1 ++ b :: a :: l2 ->
  TextObject.id a = id -> id ∉ TextObject.id <$> l1 -> TextObject.id b <> id ->
  textObjects (onMoveLayer id "down" s) = l1 ++ a :: b :: l2.
Proof.
  intros Hobjs Hid Hnin Hb. unfold onMoveLayer.
  assert (Hfind : list_find (fun t => TextObject.id t = id) (textObjects s)
                  = Some ((length l1 + 1)%nat, a)).
  { rewrite Hobjs. replace (l1 ++ b :: a :: l2) with ((l1 ++ [b]) ++ a :: l2)
      by (rewrite <- app_assoc; reflexivity).
    replace (length l1 + 1)%nat with (length (l1 ++ [b])) by (rewrite length_app; reflexivity).
    apply list_find_at; [exact Hid|].
    rewrite fmap_app. intros Hin. apply elem_of_app in Hin as [Hin|Hin]; [contradiction|].
    apply list_elem_of_singleton in Hin. congruence. }
  rewrite Hfind. simpl.
  rewrite bool_decide_eq_true_2 by lia.
  rewrite Hobjs. apply swap_adjacent_down.
Qed.

(** X8.  Reordering never loses, duplicates or alters a layer: the layer
    sequence after [onMoveLayer], in either direction and for any id, is a
    permutation of the one before. *)
Theorem reorder_permutes (id dir : string) (s : State) :
  textObjects (onMoveLayer id dir s) ≡ₚ textObjects s.
Proof.
  unfold onMoveLayer.
  destruct (list_find _ (textObjects s)) as [[idx a]|] eqn:Hfind; [|reflexivity].
  destruct (list_find_split _ _ _ _ Hfind) as (l1 & l2 & Hobjs & Hlen & _ & _).
  simpl. rewrite Hobjs, <- Hlen.
  destruct (bool_decide (dir = "up") && bool_decide (_ < _)%nat) eqn:Hup.
  - apply andb_prop in Hup as [_ Hlt]. apply bool_decide_eq_true in Hlt.
    rewrite length_app in Hlt. simpl in Hlt.
    destruct l2 as [|b l2]; [simpl in Hlt; lia|].
    rewrite swap_adjacent_up. apply Permutation_app_head, perm_swap.
  - destruct (bool_decide (dir = "down") && bool_decide (_ < _)%nat) eqn:Hdown; [|reflexivity].
    apply andb_prop in Hdown as [_ Hlt]. apply bool_decide_eq_true in Hlt.
    destruct l1 as [|b l1 _] using rev_ind; [simpl in Hlt; lia|].
    rewrite length_app. simpl. rewrite <- app_assoc. simpl.
    rewrite swap_adjacent_down. apply Permutation_app_head, perm_swap.
Qed.

Lemma NoDup_ids_adjacent (l1 l2 : list TextObject) (a b : TextObject) :
  NoDup (TextObject.id <$> l1 ++ a :: b :: l2) ->
  (TextObject.id a ∉ TextObject.id <$> l1)
  /\ (TextObject.id b ∉ TextObject.id <$> l1)
  /\ TextObject.id a <> TextObject.id b.
Proof.
  rewrite fmap_app, !fmap_cons. intros Hnd.
  apply NoDup_app in Hnd as (_ & Hdisj & Hrest).
  apply NoDup_cons in Hrest as [Hab _].
  split; [|split].
  - intros Hin. apply (Hdisj _ Hin). left.
  - intros Hin. apply (Hdisj _ Hin). right. left.
  - intros E. apply Hab. rewrite E. left.
Qed.

(** X9.  With unique layer ids, moving a layer up exchanges it with the
    layer just above and touches no other layer, and moving it down again
    restores the layer sequence; likewise down and then up. *)
Theorem reorder_round_trip (s : State) (l1 l2 : list TextObject) (a b : TextObject) :
  NoDup (TextObject.id <$> textObjects s) ->
  textObjects s = l1 ++ a :: b :: l2 ->
  textObjects (onMoveLayer (TextObject.id a) "up" s) = l1 ++ b :: a :: l2
  /\ textObjects (onMoveLayer (TextObject.id b) "down" s) = l1 ++ b :: a :: l2
  /\ textObjects (onMoveLayer (TextObject.id a) "down" (onMoveLayer (TextObject.id a) "up" s))
     = textObjects s
  /\ textObjects (onMoveLayer (TextObject.id b) "up" (onMoveLayer (TextObject.id b) "down" s))
     = textObjects s.
Proof.
  intros Hnd Hobjs. rewrite Hobjs in Hnd.
  destruct (NoDup_ids_adjacent _ _ _ _ Hnd) as (Ha & Hb & Hab).
  assert (Hup : textObjects (onMoveLayer (TextObject.id a) "up" s) = l1 ++ b :: a :: l2)
    by (apply onMoveLayer_up; [exact Hobjs | reflexivity | exact Ha]).
  assert (Hdown : textObjects (onMoveLayer (TextObject.id b) "down" s) = l1 ++ b :: a :: l2)
    by (apply onMoveLayer_down; [exact Hobjs | reflexivity | exact Hb | exact Hab]).
  split; [exact Hup|]. split; [exact Hdown|]. split.
  - rewrite Hobjs. apply onMoveLayer_down; [exact Hup | reflexivity | exact Ha | congruence].
  - rewrite Hobjs. apply onMoveLayer_up; [exact Hdown | reflexivity | exact Hb].
Qed.

Lemma reorder_round_trip_witness :
  textObjects (onMoveLayer "low" "up" twoLayers)
    = [plainLayer "top" "B" 640 360; plainLayer "low" "A" 600 300]
  /\ textObjects (onMoveLayer "low" "down" (onMoveLayer "low" "up" twoLayers))
     = textObjects twoLayers.
Proof.
  destruct (reorder_round_trip twoLayers [] []
              (plainLayer "low" "A" 600 300) (plainLayer "top" "B" 640 360))
    as (Hup & _ & Hback & _).
  - vm_compute. repeat constructor; intros H;
      repeat (apply elem_of_cons in H as [H|H]; [discriminate H|]);
      apply elem_of_nil in H; exact H.
  - reflexivity.
  - split; [exact Hup | exact Hback].
Defined.

(** ** Snap lines *)

Lemma snapAxis_cases (center v : Qc) :
  (snapAxis center v = (center, Some center)
   /\ center - num 15 < v /\ v < center + num 15)
  \/ (snapAxis center v = (v, None)
      /\ (v <= center - num 15 \/ center + num 15 <= v)).
Proof.
  destruct (Qclt_le_dec (center - num 15) v) as [Hlo|Hlo];
    [destruct (Qclt_le_dec v (center + num 15)) as [Hhi|Hhi]|].
  - left. split; [apply snapAxis_inside; assumption | split; assumption].
  - right. split; [apply snapAxis_outside; right; exact Hhi | right; exact Hhi].
  - right. split; [apply snapAxis_outside; left; exact Hlo | left; exact Hlo].
Qed.

Lemma far_from_center (center v : Qc) :
  v <= center - num 15 \/ center + num 15 <= v -> v <> center.
Proof. intros H ->. destruct H as [H|H]; qc_order. Qed.

(** X10.  During a drag the snap state tells exactly which axes are held
    at the center: the horizontal snap line is exposed (at 640) if and
    only if the stored X is 640, the vertical one (at 360) if and only if
    the stored Y is 360, and an axis without a snap line stores the
    unsnapped coordinate. *)
Theorem snap_lines_match_anchor (e : PointerEvent) (s : State) (activeObj : TextObject) :
  find_by_id (selectedTextId s) (textObjects s) = Some activeObj ->
  truthy_flag (TextObject.isDragging activeObj) = true ->
  truthy_flag (TextObject.isLocked activeObj) = false ->
  let newX := mouseX e - fst (dragOffset s) in
  let newY := mouseY e - snd (dragOffset s) in
  exists X Y : Qc,
    textObjects (handleMouseMove e s)
      = (fun t => if bool_decide (TextObject.id t = selectedTextId s)
                  then assign (kv_y Y) (assign (kv_x X) t) else t)
        <$> textObjects s
    /\ ((fst (snapLines (handleMouseMove e s)) = Some (num 640) /\ X = num 640)
        \/ (fst (snapLines (handleMouseMove e s)) = None /\ X = newX /\ X <> num 640))
    /\ ((snd (snapLines (handleMouseMove e s)) = Some (num 360) /\ Y = num 360)
        \/ (snd (snapLines (handleMouseMove e s)) = None /\ Y = newY /\ Y <> num 360)).
Proof.
  intros Hfind Hdrag Hlock newX newY.
  unfold handleMouseMove. rewrite Hfind, Hdrag, Hlock.
  cbv beta iota zeta delta [negb orb]. fold newX newY.
  destruct (snapAxis_cases centerX newX) as [(-> & _)|(-> & HX)];
    destruct (snapAxis_cases centerY newY) as [(-> & _)|(-> & HY)]; simpl.
  - exists centerX, centerY. split; [reflexivity|].
    rewrite centerX_640, centerY_360. split; left; split; reflexivity.
  - exists centerX, newY. split; [reflexivity|].
    split; [rewrite centerX_640; left; split; reflexivity|].
    right. split; [reflexivity|]. split; [reflexivity|].
    rewrite <- centerY_360. apply far_from_center, HY.
  - exists newX, centerY. split; [reflexivity|].
    split; [|rewrite centerY_360; left; split; reflexivity].
    right. split; [reflexivity|]. split; [reflexivity|].
    rewrite <- centerX_640. apply far_from_center, HX.
  - exists newX, newY. split; [reflexivity|].
    split; right; (split; [reflexivity|]); (split; [reflexivity|]).
    + rewrite <- centerX_640. apply far_from_center, HX.
    + rewrite <- centerY_360. apply far_from_center, HY.
Qed.

Lemma snap_lines_match_anchor_witness :
  exists X Y : Qc,
    textObjects (handleMouseMove {| mouseX := num 626; mouseY := num 100 |} dragStart)
      = (fun t => if bool_decide (TextObject.id t = "t1")
                  then assign (kv_y Y) (assign (kv_x X) t) else t)
        <$> textObjects dragStart
    /\ fst (snapLines (handleMouseMove {| mouseX := num 626; mouseY := num 100 |} dragStart))
       = Some (num 640)
    /\ X = num 640
    /\ snd (snapLines (handleMouseMove {| mouseX := num 626; mouseY := num 100 |} dragStart))
       = None
    /\ Y = num 100.
Proof.
  destruct (snap_lines_match_anchor {| mouseX := num 626; mouseY := num 100 |} dragStart
              (assign (kv_isDragging (Some true)) (plainLayer "t1" "X" 600 300))
              eq_refl eq_refl eq_refl)
    as (X & Y & Hobjs & HX & HY).
  exists X, Y. split; [exact Hobjs|].
  destruct HX as [[HsX ->]|(HsX & _ & _)]; [|vm_compute in HsX; discriminate HsX].
  destruct HY as [[HsY _]|(HsY & -> & _)]; [vm_compute in HsY; discriminate HsY|].
  split; [exact HsX|]. split; [reflexivity|]. split; [exact HsY|].
  apply Qc_is_canon. reflexivity.
Defined.

(** ** Keyboard *)

(** X11.  Without a selected layer, because nothing is selected or because
    the selected id names no layer of the scene, the keyboard cannot
    change the scene or the stacks except through the undo and redo
    shortcuts; in particular Delete and Backspace record nothing. *)
Theorem keyboard_needs_selection (e : KeyboardEvent) (s : State) :
  selectedTextId s = "" \/ find_by_id (selectedTextId s) (textObjects s) = None ->
  (ctrlKey e || metaKey e)
    && (bool_decide (toLowerCase (key e) = "z") || bool_decide (toLowerCase (key e) = "y"))
    = false ->
  textObjects (handleKeyDown e s) = textObjects s
  /\ history (handleKeyDown e s) = history s
  /\ future (handleKeyDown e s) = future s.
Proof.
  intros Hsel Hzy. unfold handleKeyDown.
  destruct (targetIsTextEntry e); [repeat split|].
  destruct (ctrlKey e || metaKey e); simpl in Hzy.
  - apply orb_false_elim in Hzy as [-> ->]. simpl.
    destruct (bool_decide (key e = "Escape")); [destruct (isFullScreen s); repeat split|].
    destruct Hsel as [Hsel|Hsel].
    + rewrite Hsel. repeat split.
    + rewrite Hsel. destruct (truthy_str _); repeat split.
  - simpl.
    destruct (bool_decide (key e = "Escape")); [destruct (isFullScreen s); repeat split|].
    destruct Hsel as [Hsel|Hsel].
    + rewrite Hsel. repeat split.
    + rewrite Hsel. destruct (truthy_str _); repeat split.
Qed.

Lemma keyboard_needs_selection_witness :
  textObjects (handleKeyDown (keyPress "Delete" false)
                 (handleKeyDown (keyPress "Escape" false) sceneX))
    = textObjects sceneX
  /\ history (handleKeyDown (keyPress "Delete" false)
                (handleKeyDown (keyPress "Escape" false) sceneX)) = [].
Proof.
  destruct (keyboard_needs_selection (keyPress "Delete" false)
              (handleKeyDown (keyPress "Escape" false) sceneX))
    as (Hobjs & Hhist & _); [left; reflexivity | reflexivity |].
  split; [exact Hobjs | exact Hhist].
Defined.

(** X12.  With a selected layer in the scene, Delete and Backspace do what
    the layer panel's delete does for that id: one snapshot is pushed,
    every layer with the id is removed, the selection is cleared, and one
    undo brings the layers back. *)
Theorem keyboard_delete_is_panel_delete (e : KeyboardEvent) (s : State)
    (activeObj : TextObject) :
  targetIsTextEntry e = false ->
  key e = "Delete" \/ key e = "Backspace" ->
  selectedTextId s <> "" ->
  find_by_id (selectedTextId s) (textObjects s) = Some activeObj ->
  handleKeyDown e s = onDelete (selectedTextId s) s
  /\ (selectedTextId s ∉ TextObject.id <$> textObjects (handleKeyDown e s))
  /\ selectedTextId (handleKeyDown e s) = ""
  /\ textObjects (handleUndo (handleKeyDown e s)) = textObjects s.
Proof.
  intros Htarget Hkey Hsel Hfind.
  assert (Hrun : handleKeyDown e s = onDelete (selectedTextId s) s).
  { unfold handleKeyDown. rewrite Htarget.
    unfold truthy_str. rewrite (bool_decide_eq_false_2 _ Hsel). simpl. rewrite Hfind.
    destruct Hkey as [Hk|Hk]; rewrite Hk; simpl;
      destruct (ctrlKey e || metaKey e); reflexivity. }
  split; [exact Hrun|]. rewrite Hrun. split; [|split; [reflexivity|]].
  - simpl. intros Hin. apply list_elem_of_fmap in Hin as (t & Heq & Hin).
    apply list_elem_of_filter in Hin as [Hne _]. congruence.
  - apply undo_after_push. reflexivity.
Qed.

Lemma keyboard_delete_is_panel_delete_witness :
  handleKeyDown (keyPress "Backspace" false) sceneX = onDelete "t1" sceneX
  /\ textObjects (handleKeyDown (keyPress "Backspace" false) sceneX) = []
  /\ textObjects (handleUndo (handleKeyDown (keyPress "Backspace" false) sceneX))
     = textObjects sceneX.
Proof.
  destruct (keyboard_delete_is_panel_delete (keyPress "Backspace" false) sceneX
              (plainLayer "t1" "X" 640 360) eq_refl (or_intror eq_refl))
    as (Hrun & _ & _ & Hundo); [discriminate | reflexivity |].
  split; [exact Hrun|]. split; [reflexivity | exact Hundo].
Defined.

(** ** Suggested hooks *)

Lemma insertHook_perm (a : ScoredHook) (l : list ScoredHook) :
  insertHook a l ≡ₚ a :: l.
Proof.
  induction l as [|b l IH]; simpl; [reflexivity|].
  destruct (Qclt_bool _ _); [|reflexivity].
  rewrite IH. apply perm_swap.
Qed.

Lemma sortByScore_perm (hooks : list ScoredHook) : sortByScore hooks ≡ₚ hooks.
Proof.
  induction hooks as [|a hooks IH]; simpl; [reflexivity|].
  rewrite insertHook_perm, IH. reflexivity.
Qed.









Lemma fill_text_twice (sel h : string) (objs : list TextObject) :
  let f := fun t => if bool_decide (TextObject.id t = sel)
                    then assign (kv_text h) t else t in
  f <$> (f <$> objs) = f <$> objs.
Proof.
  intros f. rewrite <- list_fmap_compose. apply list_fmap_ext. intros i t _.
  unfold f. simpl. destruct t as [id0 ? ? ? ? ? ? ? ? ? ? ? ? ? ? ? ? ? ? ? ? ?]. simpl.
  destruct (bool_decide (id0 = sel)) eqn:E; simpl; rewrite E; reflexivity.
Qed.

(** X14.  The auto-fill effect only ever rewrites the text of the layers
    carrying the selected id, to the hook ranked first; it leaves the
    stacks, the selection, the ids and every other layer alone.  It does
    nothing without suggestions, without a selection, or when the selected
    layer's text is not a placeholder, and running it again on its own
    result changes nothing. *)
Theorem auto_fill_spec (hooks : list ScoredHook) (s : State) :
  history (autoFillBestHook hooks s) = history s
  /\ future (autoFillBestHook hooks s) = future s
  /\ selectedTextId (autoFillBestHook hooks s) = selectedTextId s
  /\ TextObject.id <$> textObjects (autoFillBestHook hooks s)
     = TextObject.id <$> textObjects s
  /\ (forall i t, textObjects s !! i = Some t -> TextObject.id t <> selectedTextId s ->
        textObjects (autoFillBestHook hooks s) !! i = Some t)
  /\ (hooks = [] \/ selectedTextId s = ""
      \/ isPlaceholder
           (default "" (TextObject.text <$> find_by_id (selectedTextId s) (textObjects s)))
         = false ->
      autoFillBestHook hooks s = s)
  /\ (forall best i t,
        head (sortByScore hooks) = Some best ->
        selectedTextId s <> "" ->
        isPlaceholder
          (default "" (TextObject.text <$> find_by_id (selectedTextId s) (textObjects s)))
        = true ->
        textObjects s !! i = Some t -> TextObject.id t = selectedTextId s ->
        textObjects (autoFillBestHook hooks s) !! i = Some (assign (kv_text (hook best)) t))
  /\ autoFillBestHook hooks (autoFillBestHook hooks s) = autoFillBestHook hooks s.
Proof.
  unfold autoFillBestHook.
  destruct hooks as [|h0 hooks'] eqn:Hhooks.
  { split; [reflexivity|]. split; [reflexivity|]. split; [reflexivity|].
    split; [reflexivity|]. split; [intros i t Hi _; exact Hi|].
    split; [reflexivity|]. split; [|reflexivity].
    intros best i t Hbest. discriminate Hbest. }
  rewrite <- Hhooks.
  destruct (sortByScore hooks) as [|bestHook rest] eqn:Hsort.
  { exfalso. pose proof (sortByScore_perm hooks) as Hp. rewrite Hsort, Hhooks in Hp.
    apply Permutation_nil_l in Hp. discriminate Hp. }
  set (currentText := default "" (TextObject.text <$> find_by_id _ _)).
  destruct (isPlaceholder currentText) eqn:Hph; simpl.
  2:{ split; [reflexivity|]. split; [reflexivity|]. split; [reflexivity|].
      split; [reflexivity|]. split; [intros i t Hi _; exact Hi|].
      split; [reflexivity|]. split.
      - intros best i t _ _ Habs. discriminate Habs.
      - subst currentText. rewrite Hph. reflexivity. }
  unfold truthy_str. case_bool_decide as Hsel; simpl.
  { split; [reflexivity|]. split; [reflexivity|]. split; [reflexivity|].
    split; [reflexivity|]. split; [intros i t Hi _; exact Hi|].
    split; [reflexivity|]. split.
    - intros best i t _ Hne. contradiction.
    - subst currentText. rewrite Hph. simpl.
      rewrite bool_decide_eq_true_2 by exact Hsel. reflexivity. }
  split; [reflexivity|]. split; [reflexivity|]. split; [reflexivity|].
  split.
  { apply (fmap_cond_ids (fun t => bool_decide (TextObject.id t = selectedTextId s))).
    intros t. destruct t; reflexivity. }
  split.
  { intros i t Hi Hne. rewrite list_lookup_fmap, Hi. simpl.
    rewrite bool_decide_eq_false_2 by exact Hne. reflexivity. }
  split.
  { subst currentText. intros [Habs|[Habs|Habs]]; [congruence | contradiction | congruence]. }
  split.
  { intros best i t [= <-] _ _ Hi Hid. rewrite list_lookup_fmap, Hi. simpl.
    rewrite bool_decide_eq_true_2 by exact Hid. reflexivity. }
  destruct (isPlaceholder _ && _); [|reflexivity].
  unfold setTextObjects. simpl. f_equal. apply fill_text_twice.
Qed.

(** A suggestion placeholder is replaced by the best hook; the host's
    first layer, renamed by the user to a text of their own, is kept. *)
Lemma auto_fill_spec_witness :
  TextObject.text <$> textObjects
      (autoFillBestHook threeHooks (mounted [plainLayer "t1" "نص" 640 360] "t1"))
    = ["5 TIPS"]
  /\ autoFillBestHook threeHooks sceneX = sceneX.
Proof.
  split.
  - vm_compute. reflexivity.
  - destruct (auto_fill_spec threeHooks sceneX) as (_ & _ & _ & _ & _ & Hnoop & _).
    apply Hnoop. right. right. reflexivity.
Defined.

(** ** Highlight buttons *)






(** ** Background image *)






(** ** Placement of the text block *)







(** ** The host's pointer handlers *)












